(** * pl-tracker: the caching proxy of [server.js], embedded and verified

    The server keeps one process-wide [cache] object, fills it from two
    upstream providers (football-data.org and the Guardian) and serves a
    handful of Express routes from it.  This file embeds the helper
    functions and the route handlers of [server.js] (the version with the
    last-season, head-to-head and multi-strategy match-article routes) and
    proves the properties its specification states about them.

    Conventions of the embedding.
    - JavaScript values are the inductive [value]; the tests the code makes
      with [!x], [a && b] and [a || b] are [truthy] and [js_or], and the
      comparison [v > 0] is [js_gt0], with the coercions of the language.
      Numbers are integers, as the counts, scores and times of this program
      are; a string is the list of its character codes, below 256.
    - [async] functions are computations in the monad [M]: they thread the
      [World] (the [cache] object, the log of upstream calls, an event
      counter) and either return or throw.  One handler runs without
      interleaving with another.
    - What the process cannot decide is a variable of section [Server]: the
      clock [Date_now], the network [fetch], [JSON_stringify], the calendar
      and the two credentials of [process.env].  The clock and the network
      are indexed by the event counter, so two readings of the clock, or two
      identical requests, may differ.
    - Query parameters and team names are strings.  The table of team
      names is a plain object: a lookup in it also finds what it inherits
      from [Object.prototype], and [getTeamVariations] is modelled with
      that.  The keys of the cache ([head2head-...], a query followed by
      its options) are never such a name. *)

From Stdlib Require Import ZArith List Bool Lia Ascii.
From stdpp Require Import base strings gmap pretty.

Local Open Scope string_scope.
Set Warnings "-register-all".

(** ** JavaScript values *)

(** The values the handlers see: parsed JSON bodies (numbers are the integer
    counts and scores of the providers' payloads), plus [undefined], which
    reading a missing property yields. *)
Inductive value : Type :=
| VUndefined
| VNull
| VBool (b : bool)
| VNum (n : Z)
| VStr (s : string)
| VArr (elems : list value)
| VObj (props : list (string * value)).

(** [ToBoolean]: what [!x], [x && y], [x || y] and [if (x)] test.  Arrays and
    objects are truthy, the empty ones too. *)
Definition truthy (v : value) : bool :=
  match v with
  | VUndefined | VNull => false
  | VBool b => b
  | VNum n => negb (n =? 0)%Z
  | VStr s => negb (String.eqb s "")
  | VArr _ | VObj _ => true
  end.

(** [a || b] *)
Definition js_or (a b : value) : value := if truthy a then a else b.

(** [null] and [undefined]: the bases on which a property read throws and on
    which [?.] yields [undefined]. *)
Definition nullish (v : value) : bool :=
  match v with
  | VUndefined | VNull => true
  | _ => false
  end.

Fixpoint assoc (k : string) (props : list (string * value)) : value :=
  match props with
  | [] => VUndefined
  | (k', v) :: rest => if String.eqb k k' then v else assoc k rest
  end.

(** [v.k] on a base that is not nullish, and [v?.k] on any base.  The
    handlers read named fields and [length] only. *)
Definition member (v : value) (k : string) : value :=
  match v with
  | VObj props => assoc k props
  | VArr elems =>
      if String.eqb k "length" then VNum (Z.of_nat (length elems)) else VUndefined
  | VStr s =>
      if String.eqb k "length" then VNum (Z.of_nat (String.length s)) else VUndefined
  | _ => VUndefined
  end.


(** [obj[k] = v]: an own property keeps its place, a new one goes last. *)
Fixpoint set_prop (k : string) (v : value) (props : list (string * value))
  : list (string * value) :=
  match props with
  | [] => [(k, v)]
  | (k', v') :: rest =>
      if String.eqb k k' then (k, v) :: rest else (k', v') :: set_prop k v rest
  end.

(** [{ ...a, ...b }] *)
Definition spread (a b : list (string * value)) : list (string * value) :=
  fold_left (fun acc kv => set_prop (fst kv) (snd kv) acc) b a.

(** ** Exceptions *)

Inductive error : Type :=
| Error (message : string)        (* [new Error(message)] *)
| TypeError (message : string)    (* a property read on [null] or [undefined] *)
| FetchError (message : string).  (* node-fetch: DNS, connection, a body that is not JSON *)

Definition message (e : error) : string :=
  match e with
  | Error m | TypeError m | FetchError m => m
  end.

Inductive result (A : Type) : Type :=
| Return (a : A)
| Throw (e : error).
Arguments Return {A} a.
Arguments Throw {A} e.

Definition rbind {A B} (r : result A) (k : A -> result B) : result B :=
  match r with
  | Return a => k a
  | Throw e => Throw e
  end.

(** *** The comparison [v > 0]

    [>] coerces its left operand to a number: [ToPrimitive] with the hint
    [number], then [ToNumber]; the comparison is false on [NaN].  The
    definitions below follow the cases of the two on the values of this
    file. *)

Fixpoint codes (s : string) : list N :=
  match s with
  | EmptyString => []
  | String c rest => Ascii.N_of_ascii c :: codes rest
  end.

(** White space and line terminators: TAB, LF, VT, FF, CR, SP, NBSP. *)
Definition is_space (c : N) : bool :=
  existsb (N.eqb c) [9; 10; 11; 12; 13; 32; 160]%N.

Fixpoint trim_left (l : list N) : list N :=
  match l with
  | [] => []
  | c :: rest => if is_space c then trim_left rest else l
  end.

Definition trim (l : list N) : list N := rev (trim_left (rev (trim_left l))).

(** The value of the character [c] as a digit in base [base], if it is
    one. *)
Definition digit_of (base c : N) : option Z :=
  let d :=
    if (48 <=? c)%N && (c <=? 57)%N then Some (c - 48)%N
    else if (97 <=? c)%N && (c <=? 102)%N then Some (c - 87)%N
    else if (65 <=? c)%N && (c <=? 70)%N then Some (c - 55)%N
    else None in
  match d with
  | Some d => if (d <? base)%N then Some (Z.of_N d) else None
  | None => None
  end.

(** The longest prefix of decimal digits, and what follows it. *)
Fixpoint span_digits (l : list N) : list Z * list N :=
  match l with
  | [] => ([], [])
  | c :: rest =>
      match digit_of 10 c with
      | Some d => let (ds, tail) := span_digits rest in (d :: ds, tail)
      | None => ([], l)
      end
  end.

Definition number_of (digits : list Z) : Z :=
  fold_left (fun acc d => 10 * acc + d)%Z digits 0%Z.

(** [0x], [0o] and [0b] literals: at least one digit, all of the base; the
    number is positive when one of them is not 0. *)
Definition digits_gt0 (base : N) (l : list N) : bool :=
  negb (Nat.eqb (length l) 0)
  && forallb (fun c => match digit_of base c with Some _ => true | None => false end) l
  && existsb (fun c => match digit_of base c with
                       | Some d => negb (d =? 0)%Z
                       | None => false
                       end) l.

(** The exponent part: nothing, or [e] or [E], a sign if any, and at least
    one digit, up to the end of the string. *)
Definition exponent_of (l : list N) : option Z :=
  match l with
  | [] => Some 0%Z
  | c :: rest =>
      if (c =? 101)%N || (c =? 69)%N then
        let (negative, rest') :=
          match rest with
          | s :: r => if (s =? 45)%N then (true, r)
                      else if (s =? 43)%N then (false, r)
                      else (false, rest)
          | [] => (false, rest)
          end in
        match span_digits rest' with
        | ([], _) => None
        | (ds, []) => Some (if negative then - number_of ds else number_of ds)%Z
        | (_, _ :: _) => None
        end
      else None
  end.

(** An unsigned decimal literal that denotes a positive number: [Infinity],
    or digits with a point and an exponent if any, of which one digit at
    least is not 0, and whose value does not round to 0 as a double (it is
    more than 2^-1075). *)
Definition decimal_gt0 (l : list N) : bool :=
  if forallb (fun p => (fst p =? snd p)%N) (combine l (codes "Infinity"))
     && Nat.eqb (length l) 8
  then true
  else
    let (int_part, after_int) := span_digits l in
    let (frac_part, after_frac) :=
      match after_int with
      | c :: rest => if (c =? 46)%N then span_digits rest else ([], after_int)
      | [] => ([], [])
      end in
    match (int_part ++ frac_part)%list, exponent_of after_frac with
    | (_ :: _) as mantissa, Some e =>
        let m := number_of mantissa in
        let e10 := (e - Z.of_nat (length frac_part))%Z in
        (0 <? m)%Z
        && ((0 <=? e10)%Z || (10 ^ (- e10) <? m * 2 ^ 1075)%Z)
    | _, _ => false
    end.

(** [ToNumber(s) > 0] for a string: the string is trimmed; the empty
    string is 0, a literal with [-] is not positive, one with [0x], [0o]
    or [0b] takes no sign, and what is no literal is [NaN]. *)
Definition str_gt0 (s : string) : bool :=
  match trim (codes s) with
  | [] => false
  | c :: rest =>
      if (c =? 45)%N then false
      else if (c =? 43)%N then decimal_gt0 rest
      else
        match rest with
        | b :: digits =>
            if (c =? 48)%N && ((b =? 120)%N || (b =? 88)%N) then digits_gt0 16 digits
            else if (c =? 48)%N && ((b =? 111)%N || (b =? 79)%N) then digits_gt0 8 digits
            else if (c =? 48)%N && ((b =? 98)%N || (b =? 66)%N) then digits_gt0 2 digits
            else decimal_gt0 (c :: rest)
        | [] => decimal_gt0 (c :: rest)
        end
  end.

Fixpoint has_own (k : string) (props : list (string * value)) : bool :=
  match props with
  | [] => false
  | (k', _) :: rest => String.eqb k k' || has_own k rest
  end.

(** Whether [ToString] returns on [v].  It throws on an object with a
    property [toString] of its own, which is no function in a parsed body
    (the [valueOf] tried next gives no primitive either), and on an array
    with such an element; [null] and [undefined] elements are skipped by
    [join]. *)
Fixpoint stringifies (v : value) : bool :=
  match v with
  | VObj props => negb (has_own "toString" props)
  | VArr elems =>
      forallb (fun x => match x with
                        | VUndefined | VNull => true
                        | _ => stringifies x
                        end) elems
  | _ => true
  end.

Definition not_primitive : error :=
  TypeError "Cannot convert object to primitive value".

(** [v > 0].  [undefined] is [NaN] and [null] is 0; [true] is 1; an object
    is the string [[object Object]], which is [NaN]; an array is the string
    [join] makes of it: empty for no element, that of its element for one
    (empty for [null] and [undefined]), and no number for more than one,
    since it has a comma. *)
Fixpoint js_gt0 (v : value) : result bool :=
  match v with
  | VUndefined | VNull => Return false
  | VBool b => Return b
  | VNum n => Return (0 <? n)%Z
  | VStr s => Return (str_gt0 s)
  | VObj props =>
      if has_own "toString" props then Throw not_primitive else Return false
  | VArr elems =>
      if negb (stringifies (VArr elems)) then Throw not_primitive
      else
        match elems with
        | [x] =>
            match x with
            | VBool _ => Return false
            | _ => js_gt0 x
            end
        | _ => Return false
        end
  end.

(** [Array.prototype.map] with a callback that may throw: the first throw
    ends the loop. *)
Fixpoint mapE {A B} (f : A -> result B) (l : list A) : result (list B) :=
  match l with
  | [] => Return []
  | x :: rest =>
      rbind (f x) (fun y => rbind (mapE f rest) (fun ys => Return (y :: ys)))
  end.

(** [v.k] where the code does not guard the base. *)
Definition memberE (v : value) (k : string) : result value :=
  match v with
  | VUndefined =>
      Throw (TypeError ("Cannot read properties of undefined (reading '" +:+ k +:+ "')"))
  | VNull =>
      Throw (TypeError ("Cannot read properties of null (reading '" +:+ k +:+ "')"))
  | _ => Return (member v k)
  end.

(** ** The two providers *)

Definition API_BASE : string := "https://api.football-data.org/v4".
Definition GUARDIAN_API_BASE : string := "https://content.guardianapis.com".

(** An upstream call: the URL and the [X-Auth-Token] header for
    football-data.org; for the Guardian the URL up to [?] and the entries of
    the [URLSearchParams] object, before percent-encoding. *)
Inductive Request : Type :=
| FootballRequest (url : string) (token : string)
| GuardianRequest (url : string) (queryParams : list (string * value)).

(** What [await fetch(...)] can do: reject, or give a response; and what
    [await response.json()] does on that response: return the parsed body,
    or reject with an error of its own (node-fetch rejects with a
    [FetchError] that names the URL and the parser's complaint). *)
Inductive Outcome : Type :=
| Rejected (e : error)
| Response (status : Z) (statusText : string) (json : result value).

(** [response.ok] *)
Definition ok (status : Z) : bool := (200 <=? status)%Z && (status <=? 299)%Z.

(** ** The cache object *)

(** [{ data, timestamp, ttl }]; [timestamp] is [null] ([None]) or a reading of
    the clock. *)
Record CacheEntry : Type := mkEntry {
  data : value;
  timestamp : option Z;
  ttl : Z
}.

(** The stored [timestamp] as a value, and as the number it is in a
    subtraction ([null] counts as 0 there). *)
Definition timestamp_value (t : option Z) : value :=
  match t with
  | Some n => VNum n
  | None => VNull
  end.

Definition timestamp_number (t : option Z) : Z :=
  match t with
  | Some n => n
  | None => 0
  end.

(** An entry of [cache.guardianArticles]: [{ data, timestamp }]. *)
Record ArticleEntry : Type := mkArticle {
  article_data : value;
  article_timestamp : Z
}.

(** The state of the process.  [cache] holds the entry-shaped properties of
    the JavaScript [cache] object (named and [head2head-...] keys), and
    [guardianArticles] its property of that name, an object used as a map.
    [getCachedOrFetch] and [isCacheValid] are called with the seven names
    below and with [head2head-...] keys, never with [guardianArticles]. *)
Record World : Type := mkWorld {
  cache : gmap string CacheEntry;
  guardianArticles : gmap string ArticleEntry;
  events : nat;             (* clock readings and upstream calls so far *)
  requests : list Request   (* the upstream calls, oldest first *)
}.

Definition fresh (t : Z) : CacheEntry :=
  {| data := VNull; timestamp := None; ttl := t |}.

(** [const cache = { ... }] *)
Definition initial_cache : gmap string CacheEntry :=
  list_to_map
    [ ("standings", fresh 300000);
      ("matches", fresh 180000);
      ("scorers", fresh 600000);
      ("teams", fresh 3600000);
      ("competition", fresh 86400000);
      ("standingsLast", fresh 3600000);
      ("matchesLast", fresh 3600000) ].

Definition initial_world : World :=
  {| cache := initial_cache; guardianArticles := ∅; events := 0; requests := [] |}.

(** The properties the [cache] object has at startup. *)
Definition preRegistered : list string :=
  [ "standings"; "matches"; "scorers"; "teams"; "competition";
    "standingsLast"; "matchesLast"; "guardianArticles" ].

Definition set_cache (c : gmap string CacheEntry) (w : World) : World :=
  {| cache := c; guardianArticles := guardianArticles w;
     events := events w; requests := requests w |}.

Definition set_guardianArticles (g : gmap string ArticleEntry) (w : World) : World :=
  {| cache := cache w; guardianArticles := g;
     events := events w; requests := requests w |}.

(** ** Express responses and request parameters *)

(** [res.status(status).json(body)]: the status and the object handed to
    [json], before it is serialised. *)
Record HttpResponse : Type := mkResponse {
  status : Z;
  body : value
}.

Definition res_status (code : Z) (b : value) : HttpResponse :=
  {| status := code; body := b |}.

(** [res.json(body)] *)
Definition res_json (b : value) : HttpResponse := res_status 200 b.

(** A query parameter, an environment variable or an array element read by
    index is a string or [undefined] ([None]); in a template literal the
    latter prints as [undefined]. *)
Definition show (s : option string) : string :=
  match s with
  | Some s => s
  | None => "undefined"
  end.

(** Such a value among the others. *)
Definition string_value (v : option string) : value :=
  match v with
  | Some s => VStr s
  | None => VUndefined
  end.

(** [a === b] on such values. *)
Definition option_eqb (a b : option string) : bool :=
  match a, b with
  | Some x, Some y => String.eqb x y
  | None, None => true
  | _, _ => false
  end.

(** [a || b] on such values, printed. *)
Definition str_or (a b : option string) : string :=
  match a with
  | Some s => if String.eqb s "" then show b else s
  | None => show b
  end.

(** The double quote, and a string between two of them. *)
Definition dquote : string := String (Ascii.ascii_of_nat 34) EmptyString.
Definition quoted (s : string) : string := dquote +:+ s +:+ dquote.

(** ** Team names *)

(** [TEAM_NAME_VARIATIONS]: from the short name to the names the Guardian
    may use, the preferred one first. *)
Definition TEAM_NAME_VARIATIONS : list (string * list string) :=
  [ ("Man City", ["Manchester City"; "Man City"]);
    ("Man Utd", ["Manchester United"; "Man Utd"; "Manchester Utd"]);
    ("Spurs", ["Tottenham"; "Spurs"; "Tottenham Hotspur"]);
    ("Newcastle", ["Newcastle"; "Newcastle United"]);
    ("West Ham", ["West Ham"; "West Ham United"]);
    ("Wolves", ["Wolves"; "Wolverhampton"; "Wolverhampton Wanderers"]);
    ("Brighton", ["Brighton"; "Brighton & Hove Albion"; "Brighton and Hove Albion"]);
    ("Nott'm Forest", ["Nottingham Forest"; "Nott'm Forest"; "Forest"]);
    ("Leicester", ["Leicester"; "Leicester City"]);
    ("Bournemouth", ["Bournemouth"; "AFC Bournemouth"]);
    ("Crystal Palace", ["Crystal Palace"; "Palace"]);
    ("Ipswich", ["Ipswich"; "Ipswich Town"]);
    ("Everton", ["Everton"]);
    ("Arsenal", ["Arsenal"]);
    ("Liverpool", ["Liverpool"]);
    ("Chelsea", ["Chelsea"]);
    ("Aston Villa", ["Aston Villa"; "Villa"]);
    ("Fulham", ["Fulham"]);
    ("Brentford", ["Brentford"]);
    ("Southampton", ["Southampton"]) ].

(** The properties [TEAM_NAME_VARIATIONS] has of its own. *)
Fixpoint lookup_variations (teamName : string) (table : list (string * list string))
  : option (list string) :=
  match table with
  | [] => None
  | (name, variations) :: rest =>
      if String.eqb teamName name then Some variations
      else lookup_variations teamName rest
  end.

(** What the table inherits, being a plain object: the members of
    [Object.prototype].  Eleven are functions, listed with their [length]
    (the number of their parameters); [__proto__] reads as
    [Object.prototype] itself, an object without [length]. *)
Definition Object_prototype : list (string * option Z) :=
  [ ("constructor", Some 1%Z);
    ("__defineGetter__", Some 2%Z);
    ("__defineSetter__", Some 2%Z);
    ("hasOwnProperty", Some 1%Z);
    ("__lookupGetter__", Some 1%Z);
    ("__lookupSetter__", Some 1%Z);
    ("isPrototypeOf", Some 1%Z);
    ("propertyIsEnumerable", Some 1%Z);
    ("toString", Some 0%Z);
    ("valueOf", Some 0%Z);
    ("__proto__", None);
    ("toLocaleString", Some 0%Z) ].

Fixpoint lookup_inherited (name : string) (members : list (string * option Z))
  : option (option Z) :=
  match members with
  | [] => None
  | (name', len) :: rest =>
      if String.eqb name name' then Some len else lookup_inherited name rest
  end.

(** What [getTeamVariations] can return: an array of names, or a member of
    [Object.prototype], known by its [length] if it has one. *)
Inductive Variations : Type :=
| Names (names : list string)
| Inherited (len : option Z).

(** [variations[i]]: a function and [Object.prototype] have no property
    named by a number. *)
Definition at_index (variations : Variations) (i : nat) : option string :=
  match variations with
  | Names names => names !! i
  | Inherited _ => None
  end.

(** [variations.length], [None] for [undefined]. *)
Definition length_of (variations : Variations) : option Z :=
  match variations with
  | Names names => Some (Z.of_nat (length names))
  | Inherited len => len
  end.

(** [x > n] for such a length: [undefined] is [NaN], which compares
    false. *)
Definition length_gt (len : option Z) (n : Z) : bool :=
  match len with
  | Some l => (n <? l)%Z
  | None => false
  end.

(** [Math.max(a, b)], [None] for the [NaN] it gives when an argument is
    [undefined]. *)
Definition Math_max (a b : option Z) : option Z :=
  match a, b with
  | Some x, Some y => Some (Z.max x y)
  | _, _ => None
  end.

(** The number of turns of [for (let i = 1; i < bound; i++)]: none when
    [bound] is [NaN]. *)
Definition turns_from_1 (bound : option Z) : nat :=
  match bound with
  | Some b => Z.to_nat (b - 1)
  | None => 0
  end.

(** The world after a reading of the clock, and after an upstream call. *)
Definition tick (w : World) : World :=
  {| cache := cache w; guardianArticles := guardianArticles w;
     events := S (events w); requests := requests w |}.

Definition sent (r : Request) (w : World) : World :=
  {| cache := cache w; guardianArticles := guardianArticles w;
     events := S (events w); requests := requests w ++ [r] |}.

(** ** Computations *)

Definition M (A : Type) : Type := World -> result A * World.

Definition ret {A} (a : A) : M A := fun w => (Return a, w).
Definition throw {A} (e : error) : M A := fun w => (Throw e, w).

Definition bind {A B} (m : M A) (k : A -> M B) : M B :=
  fun w =>
    match m w with
    | (Return a, w') => k a w'
    | (Throw e, w') => (Throw e, w')
    end.

(** [try { m } catch (error) { h error }] *)
Definition try_catch {A} (m : M A) (h : error -> M A) : M A :=
  fun w =>
    match m w with
    | (Return a, w') => (Return a, w')
    | (Throw e, w') => h e w'
    end.

Definition lift {A} (r : result A) : M A := fun w => (r, w).

Declare Scope js_scope.
Delimit Scope js_scope with js.
Notation "'let!' x ':=' m 'in' k" := (bind m (fun x => k))
  (at level 10, x name, m at level 100, k at level 200) : js_scope.
Notation "'do!' m 'in' k" := (bind m (fun _ => k))
  (at level 10, m at level 100, k at level 200) : js_scope.
Local Open Scope js_scope.

Section Server.

(** The [n]-th event, when it is a reading of the clock, reads [Date_now n]
    (milliseconds); when it is a request [r], is answered [fetch n r]. *)
Variable Date_now : nat -> Z.
Variable fetch : nat -> Request -> Outcome.
Variable JSON_stringify : list (string * value) -> string.
(** [process.env.FOOTBALL_API_KEY], [process.env.GUARDIAN_API_KEY] *)
Variable FOOTBALL_API_KEY : option string.
Variable GUARDIAN_API_KEY : option string.

(** [Date.now()] *)
Definition now : M Z :=
  fun w => (Return (Date_now (events w)), tick w).

(** [await fetch(...)], with [await response.json()] folded in. *)
Definition call (r : Request) : M Outcome :=
  fun w => (Return (fetch (events w) r), sent r w).

(** An environment variable that is unset or empty is falsy. *)
Definition env_or_empty (v : option string) : string :=
  match v with
  | Some s => s
  | None => ""
  end.

(** *** [isCacheValid] *)
Definition isCacheValid (cacheKey : string) : M bool :=
  fun w =>
    match cache w !! cacheKey with
    | None => ret false w
    | Some cacheEntry =>
        if negb (truthy (data cacheEntry))
           || negb (truthy (timestamp_value (timestamp cacheEntry)))
        then ret false w
        else
          (let! n := now in
           ret (n - timestamp_number (timestamp cacheEntry) <? ttl cacheEntry)%Z) w
    end.

(** *** [fetchFootballData] *)
Definition fetchFootballData (endpoint : string) : M value :=
  try_catch
    (let! response := call (FootballRequest (API_BASE +:+ endpoint)
                                            (env_or_empty FOOTBALL_API_KEY)) in
     match response with
     | Rejected e => throw e
     | Response status statusText json =>
         if (status =? 403)%Z then
           throw (Error "API key required or rate limit exceeded. Get free key at: https://www.football-data.org/client/register")
         else if (status =? 429)%Z then
           throw (Error "Rate limit exceeded. Wait a minute or add API key.")
         else if negb (ok status) then
           throw (Error ("API returned " +:+ pretty status +:+ ": " +:+ statusText))
         else
           match json with
           | Return d => ret d
           | Throw e => throw e
           end
     end)
    (fun e => throw e).

(** *** [getCachedOrFetch] *)
Definition getCachedOrFetch (cacheKey endpoint : string) : M value :=
  let! valid := isCacheValid cacheKey in
  if valid then
    fun w =>
      match cache w !! cacheKey with
      | Some cacheEntry => ret (data cacheEntry) w
      | None => throw (TypeError "Cannot read properties of undefined (reading 'data')") w
      end
  else
    let! d := fetchFootballData endpoint in
    do! (fun w =>
           match cache w !! cacheKey with
           | Some _ => ret tt w
           | None => ret tt (set_cache (<[cacheKey := fresh 300000]> (cache w)) w)
           end) in
    do! (fun w =>
           ret tt (set_cache (alter (fun e => mkEntry d (timestamp e) (ttl e))
                                    cacheKey (cache w)) w)) in
    let! n := now in
    do! (fun w =>
           ret tt (set_cache (alter (fun e => mkEntry (data e) (Some n) (ttl e))
                                    cacheKey (cache w)) w)) in
    ret d.

(** *** [fetchGuardianData] *)
Definition fetchGuardianData (endpoint : string) (params : list (string * value))
  : M value :=
  try_catch
    (let guardianApiKey := string_value GUARDIAN_API_KEY in
     if negb (truthy guardianApiKey) then ret VNull
     else
       let queryParams :=
         spread [ ("api-key", guardianApiKey);
                  ("show-fields", VStr "headline,byline,trailText,body,thumbnail") ]
                params in
       let! response := call (GuardianRequest (GUARDIAN_API_BASE +:+ endpoint) queryParams) in
       match response with
       | Rejected e => throw e
       | Response status statusText json =>
           if negb (ok status) then ret VNull
           else
             match json with
             | Return d => ret d
             | Throw e => throw e
             end
       end)
    (fun _ => ret VNull).

(** *** [getTeamVariations]

    [TEAM_NAME_VARIATIONS[teamName]] finds a property of the table or, for
    want of one, a member of [Object.prototype]; arrays, functions and
    objects are all truthy, so whatever is found is returned. *)
Definition getTeamVariations (teamName : string) : Variations :=
  match lookup_variations teamName TEAM_NAME_VARIATIONS with
  | Some variations => Names variations
  | None =>
      match lookup_inherited teamName Object_prototype with
      | Some len => Inherited len
      | None => Names [teamName]
      end
  end.

(** *** [searchGuardianArticles] *)
Definition searchGuardianArticles (query : string) (options : list (string * value))
  : M value :=
  let cacheKey := query +:+ "-" +:+ JSON_stringify options in
  let! n := now in
  let! hit :=
    (fun w =>
       match guardianArticles w !! cacheKey with
       | Some entry =>
           if truthy (VNum (article_timestamp entry))
              && (n - article_timestamp entry <? 1800000)%Z
           then ret (Some (article_data entry)) w
           else ret None w
       | None => ret None w
       end) in
  match hit with
  | Some d => ret d
  | None =>
      let params :=
        spread [ ("q", VStr query);
                 ("section", VStr "football");
                 ("page-size", js_or (assoc "pageSize" options) (VNum 5)) ]
               options in
      let! d := fetchGuardianData "/search" params in
      if truthy d && truthy (member d "response") then
        do! (fun w =>
               ret tt (set_guardianArticles
                         (<[cacheKey := mkArticle (member d "response") n]>
                            (guardianArticles w)) w)) in
        ret (member d "response")
      else ret VNull
  end.

(** *** [GET /api/standings/last] and [GET /api/matches/last] *)

(** [getFullYear] and [getMonth] of the [Date] made from a clock reading, in
    the time zone of the process. *)
Variable getFullYear : Z -> Z.
Variable getMonth : Z -> Z.

Definition failed (what : string) (e : error) : HttpResponse :=
  res_status 500 (VObj [ ("error", VStr what); ("details", VStr (message e)) ]).

Definition standingsLast : M HttpResponse :=
  try_catch
    (let! d1 := now in
     let currentYear := getFullYear d1 in
     let! d2 := now in
     let currentMonth := getMonth d2 in
     let lastSeasonYear :=
       if (currentMonth <? 7)%Z then (currentYear - 2)%Z else (currentYear - 1)%Z in
     let! d := getCachedOrFetch "standingsLast"
                 ("/competitions/PL/standings?season=" +:+ pretty lastSeasonYear) in
     ret (res_json d))
    (fun e => ret (failed "Failed to fetch last season standings" e)).

Definition matchesLast : M HttpResponse :=
  try_catch
    (let! d1 := now in
     let currentYear := getFullYear d1 in
     let! d2 := now in
     let currentMonth := getMonth d2 in
     let lastSeasonYear :=
       if (currentMonth <? 7)%Z then (currentYear - 2)%Z else (currentYear - 1)%Z in
     let! d := getCachedOrFetch "matchesLast"
                 ("/competitions/PL/matches?season=" +:+ pretty lastSeasonYear) in
     ret (res_json d))
    (fun e => ret (failed "Failed to fetch last season matches" e)).

(** *** [GET /api/guardian/match] *)

Definition searchOptions (type : option string) : list (string * value) :=
  let tag :=
    if option_eqb type (Some "preview")
    then "tone/minutebyminute,football/series/match-previews"
    else "tone/matchreports" in
  [ ("tag", VStr tag); ("page-size", VNum 5); ("order-by", VStr "newest") ].

(** [articles && articles.results && articles.results.length > 0], as the
    [if] takes it. *)
Definition hasArticles (articles : value) : result bool :=
  if truthy articles && truthy (member articles "results")
  then js_gt0 (member (member articles "results") "length")
  else Return false.

Definition found (articles : value) (searchStrategy : string) : HttpResponse :=
  res_json (VObj [ ("success", VBool true);
                   ("articles", member articles "results");
                   ("total", member articles "total");
                   ("searchStrategy", VStr searchStrategy) ]).

Definition notFound : HttpResponse :=
  res_json (VObj [ ("success", VBool true);
                   ("articles", VArr []);
                   ("total", VNum 0);
                   ("searchStrategy", VStr "none");
                   ("message", VStr "No match articles found. The match may not have coverage yet, or try checking later.") ]).

(** The [for] loop of strategy 4, from index [i], with [n] turns left: the
    response of the turn that returns, if one does. *)
Fixpoint variationLoop (homeVariations awayVariations : Variations)
         (options : list (string * value)) (n i : nat) : M (option HttpResponse) :=
  match n with
  | O => ret None
  | S n' =>
      let homeAlt := str_or (at_index homeVariations i) (at_index homeVariations 0) in
      let awayAlt := str_or (at_index awayVariations i) (at_index awayVariations 0) in
      let query := quoted homeAlt +:+ " AND " +:+ quoted awayAlt in
      let! articles := searchGuardianArticles query options in
      let! some := lift (hasArticles articles) in
      if some
      then ret (Some (found articles ("variation-" +:+ pretty i)))
      else variationLoop homeVariations awayVariations options n' (S i)
  end.

Definition guardianMatch (homeTeam awayTeam type : option string) : M HttpResponse :=
  try_catch
    (if negb (truthy (string_value homeTeam)) || negb (truthy (string_value awayTeam)) then
       ret (res_status 400 (VObj [ ("error", VStr "homeTeam and awayTeam parameters required") ]))
     else
       let options := searchOptions type in
       let homeVariations := getTeamVariations (show homeTeam) in
       let awayVariations := getTeamVariations (show awayTeam) in
       (* Strategy 1 *)
       let query := quoted (show homeTeam) +:+ " AND " +:+ quoted (show awayTeam) in
       let! articles := searchGuardianArticles query options in
       let! some := lift (hasArticles articles) in
       if some then ret (found articles "exact")
       else
         (* Strategy 2 *)
         let! response2 :=
           (if length_gt (length_of homeVariations) 1
               || length_gt (length_of awayVariations) 1 then
              let fullHomeName := at_index homeVariations 0 in
              let fullAwayName := at_index awayVariations 0 in
              if negb (option_eqb fullHomeName homeTeam)
                 || negb (option_eqb fullAwayName awayTeam) then
                let query := quoted (show fullHomeName) +:+ " AND " +:+ quoted (show fullAwayName) in
                let! articles := searchGuardianArticles query options in
                let! some := lift (hasArticles articles) in
                if some then ret (Some (found articles "full-names"))
                else ret None
              else ret None
            else ret None) in
         match response2 with
         | Some r => ret r
         | None =>
             (* Strategy 3 *)
             let query := show (at_index homeVariations 0) +:+ " "
                          +:+ show (at_index awayVariations 0) in
             let! articles := searchGuardianArticles query options in
             let! some := lift (hasArticles articles) in
             if some then ret (found articles "unquoted")
             else
               (* Strategy 4 *)
               let! response4 :=
                 variationLoop homeVariations awayVariations options
                   (turns_from_1 (Math_max (length_of homeVariations)
                                           (length_of awayVariations))) 1 in
               match response4 with
               | Some r => ret r
               | None => ret notFound
               end
         end)
    (fun e => ret (failed "Failed to fetch Guardian articles" e)).

(** *** [GET /api/head2head/:matchId] *)

(** One element of [recentMatches]; the properties are read in the order
    of the object literal. *)
Definition recentMatch (m : value) : result value :=
  rbind (memberE m "utcDate") (fun date =>
  rbind (memberE m "homeTeam") (fun home =>
  rbind (memberE home "shortName") (fun homeShort =>
  rbind (if truthy homeShort then Return homeShort else memberE home "name") (fun homeName =>
  rbind (memberE m "awayTeam") (fun away =>
  rbind (memberE away "shortName") (fun awayShort =>
  rbind (if truthy awayShort then Return awayShort else memberE away "name") (fun awayName =>
  rbind (memberE m "score") (fun score =>
  rbind (memberE score "fullTime") (fun fullTime =>
  rbind (memberE fullTime "home") (fun homeScore =>
  rbind (memberE fullTime "away") (fun awayScore =>
  rbind (memberE score "winner") (fun winner =>
  Return (VObj [ ("date", date);
                 ("homeTeam", homeName);
                 ("awayTeam", awayName);
                 ("homeScore", homeScore);
                 ("awayScore", awayScore);
                 ("winner", winner) ]))))))))))))).

(** [data.matches.slice(0, 5).map(...)] *)
Definition recentMatches (matches : value) : result value :=
  match matches with
  | VArr elems => rbind (mapE recentMatch (firstn 5 elems)) (fun l => Return (VArr l))
  | VStr _ => Throw (TypeError "data.matches.slice(...).map is not a function")
  | _ => Throw (TypeError "data.matches.slice is not a function")
  end.

(** The [stats] object, for [data] with [data.matches] truthy. *)
Definition head2headStats (d : value) : result value :=
  let aggregates := member d "aggregates" in
  let homeTeam := member (member aggregates "homeTeam") "name" in
  let awayTeam := member (member aggregates "awayTeam") "name" in
  rbind (recentMatches (member d "matches")) (fun recent =>
  Return
    (VObj [ ("homeTeam",
             VObj [ ("name", homeTeam);
                    ("wins", js_or (member (member aggregates "homeTeam") "wins") (VNum 0));
                    ("draws", js_or (member aggregates "draws") (VNum 0));
                    ("losses", js_or (member (member aggregates "awayTeam") "wins") (VNum 0)) ]);
            ("awayTeam",
             VObj [ ("name", awayTeam);
                    ("wins", js_or (member (member aggregates "awayTeam") "wins") (VNum 0));
                    ("draws", js_or (member aggregates "draws") (VNum 0));
                    ("losses", js_or (member (member aggregates "homeTeam") "wins") (VNum 0)) ]);
            ("totalMatches", js_or (member aggregates "numberOfMatches") (VNum 0));
            ("recentMatches", recent) ])).

(** What the handler answers once [getCachedOrFetch] has returned [data]. *)
Definition head2headAnswer (d : value) : result HttpResponse :=
  if truthy d && truthy (member d "matches") then
    rbind (head2headStats d) (fun stats =>
    Return (res_json (VObj [ ("success", VBool true);
                             ("stats", stats);
                             ("allMatches", member d "matches") ])))
  else
    Return (res_json (VObj [ ("success", VBool true);
                             ("stats", VNull);
                             ("message", VStr "No previous meetings found between these teams") ])).

Definition head2headKey (matchId : string) : string := "head2head-" +:+ matchId.

Definition head2headEndpoint (matchId : string) (limit : option string) : string :=
  "/matches/" +:+ matchId +:+ "/head2head?limit=" +:+ str_or limit (Some "10").

(** [matchId] is the route parameter, [limit] is [req.query.limit]. *)
Definition head2head (matchId : string) (limit : option string) : M HttpResponse :=
  try_catch
    (if negb (truthy (VStr matchId)) then
       ret (res_status 400 (VObj [ ("error", VStr "matchId parameter required") ]))
     else
       let! d := getCachedOrFetch (head2headKey matchId) (head2headEndpoint matchId limit) in
       lift (head2headAnswer d))
    (fun e => ret (failed "Failed to fetch head-to-head data" e)).

(** *** [POST /api/cache/clear] *)

(** [Object.keys(cache).forEach(...)]: every entry-shaped property has its
    [data] and [timestamp] set to [null]; [guardianArticles] is given the
    two properties as well and is then replaced by [{}]. *)
Definition clearEntry (e : CacheEntry) : CacheEntry :=
  {| data := VNull; timestamp := None; ttl := ttl e |}.

Definition cacheClear : M HttpResponse :=
  fun w =>
    (Return (res_json (VObj [ ("message", VStr "Cache cleared successfully") ])),
     {| cache := clearEntry <$> cache w;
        guardianArticles := ∅;
        events := events w;
        requests := requests w |}).

(** *** [GET /api/standings], [/api/matches], [/api/scorers], [/api/teams]
    and [/api/competition]

    Five handlers of one shape: [getCachedOrFetch] under the name of the
    resource, the payload handed to [res.json], a failure answered 500. *)
Definition cachedRoute (cacheKey endpoint what : string) : M HttpResponse :=
  try_catch
    (let! d := getCachedOrFetch cacheKey endpoint in
     ret (res_json d))
    (fun e => ret (failed what e)).

Definition standingsRoute : M HttpResponse :=
  cachedRoute "standings" "/competitions/PL/standings" "Failed to fetch standings".

Definition matchesRoute : M HttpResponse :=
  cachedRoute "matches" "/competitions/PL/matches" "Failed to fetch matches".

Definition scorersRoute : M HttpResponse :=
  cachedRoute "scorers" "/competitions/PL/scorers" "Failed to fetch scorers".

Definition teamsRoute : M HttpResponse :=
  cachedRoute "teams" "/competitions/PL/teams" "Failed to fetch teams".

Definition competitionRoute : M HttpResponse :=
  cachedRoute "competition" "/competitions/PL" "Failed to fetch competition".

(** *** [GET /api/guardian/team] *)

Definition teamOptions : list (string * value) :=
  [ ("page-size", VNum 5); ("order-by", VStr "newest") ].

Definition guardianTeam (team : option string) : M HttpResponse :=
  try_catch
    (if negb (truthy (string_value team)) then
       ret (res_status 400 (VObj [ ("error", VStr "team parameter required") ]))
     else
       let! articles := searchGuardianArticles (quoted (show team)) teamOptions in
       ret (res_json (VObj [ ("success", VBool true);
                             ("articles", js_or (member articles "results") (VArr []));
                             ("total", js_or (member articles "total") (VNum 0)) ])))
    (fun e => ret (failed "Failed to fetch Guardian articles" e)).

(** *** [GET /api/health] *)

(** [toISOString] of the [Date] made from a clock reading. *)
Variable toISOString : Z -> string.

(** The object literal names [competition] twice: [isCacheValid] runs eight
    times, in the order written, and the object keeps the place of the first
    [competition] with the value of the second. *)
Definition health : M HttpResponse :=
  let! d := now in
  let! v_standings := isCacheValid "standings" in
  let! v_matches := isCacheValid "matches" in
  let! v_scorers := isCacheValid "scorers" in
  let! v_teams := isCacheValid "teams" in
  let! v_competition := isCacheValid "competition" in
  let! v_standingsLast := isCacheValid "standingsLast" in
  let! v_matchesLast := isCacheValid "matchesLast" in
  let! v_competition' := isCacheValid "competition" in
  ret (res_json
         (VObj [ ("status", VStr "OK");
                 ("message", VStr "Premier League API Backend (Football-Data.org + Guardian)");
                 ("timestamp", VStr (toISOString d));
                 ("cache",
                  VObj [ ("standings", VBool v_standings);
                         ("matches", VBool v_matches);
                         ("scorers", VBool v_scorers);
                         ("teams", VBool v_teams);
                         ("competition", VBool v_competition');
                         ("standingsLast", VBool v_standingsLast);
                         ("matchesLast", VBool v_matchesLast) ]) ])).

(** ** Vocabulary of the statements *)

(** A value is present when the code's own test, [!x], finds it so: it is
    none of [null], [undefined], [false], [0] and the empty string.  Every
    JSON object and array is present. *)
Definition present (v : value) : Prop := truthy v = true.

(** The time-to-live under which [getCachedOrFetch] stores into a slot:
    the slot's own, or five minutes for a slot it has to create. *)
Definition slot_ttl (slot : option CacheEntry) : Z :=
  match slot with
  | Some e => ttl e
  | None => 300000
  end.

Definition footballRequest (endpoint : string) : Request :=
  FootballRequest (API_BASE +:+ endpoint) (env_or_empty FOOTBALL_API_KEY).

(** The season year as the specification words it. *)
Definition lastSeasonYear_spec (currentYear currentMonth : Z) : Z :=
  if (7 <=? currentMonth)%Z then (currentYear - 1)%Z else (currentYear - 2)%Z.

Definition guardianRequest (endpoint : string) (params : list (string * value)) : Request :=
  GuardianRequest (GUARDIAN_API_BASE +:+ endpoint)
    (spread [ ("api-key", string_value GUARDIAN_API_KEY);
              ("show-fields", VStr "headline,byline,trailText,body,thumbnail") ]
            params).

(** One recent meeting as the specification words it: the date, the two
    team names (the short one when there is one), the full-time score and
    the winner. *)
Definition summary (m : value) : value :=
  VObj [ ("date", member m "utcDate");
         ("homeTeam", js_or (member (member m "homeTeam") "shortName")
                            (member (member m "homeTeam") "name"));
         ("awayTeam", js_or (member (member m "awayTeam") "shortName")
                            (member (member m "awayTeam") "name"));
         ("homeScore", member (member (member m "score") "fullTime") "home");
         ("awayScore", member (member (member m "score") "fullTime") "away");
         ("winner", member (member m "score") "winner") ].

(** The chain of the handler, for any two names: the name and the query of
    each search it can make, in the order it makes them. *)
Definition variation (homeVariations awayVariations : Variations) (i : nat)
  : string * string :=
  ("variation-" +:+ pretty i,
   quoted (str_or (at_index homeVariations i) (at_index homeVariations 0))
   +:+ " AND "
   +:+ quoted (str_or (at_index awayVariations i) (at_index awayVariations 0))).

Definition strategies (homeTeam awayTeam : string) : list (string * string) :=
  let homeVariations := getTeamVariations homeTeam in
  let awayVariations := getTeamVariations awayTeam in
  [ ("exact", quoted homeTeam +:+ " AND " +:+ quoted awayTeam) ]
  ++ (if (length_gt (length_of homeVariations) 1
          || length_gt (length_of awayVariations) 1)
         && (negb (option_eqb (at_index homeVariations 0) (Some homeTeam))
             || negb (option_eqb (at_index awayVariations 0) (Some awayTeam)))
      then [ ("full-names",
              quoted (show (at_index homeVariations 0)) +:+ " AND "
              +:+ quoted (show (at_index awayVariations 0))) ]
      else [])
  ++ [ ("unquoted",
        show (at_index homeVariations 0) +:+ " " +:+ show (at_index awayVariations 0)) ]
  ++ map (variation homeVariations awayVariations)
         (seq 1 (turns_from_1 (Math_max (length_of homeVariations)
                                        (length_of awayVariations)))).

(** The chain of strategies as the specification words it.  The variants
    of a name are the list the table has for it, or the name alone; the
    preferred one is the first; an exact-phrase query puts each name
    between double quotes. *)
Definition variantsFor (shortName : string) : list string :=
  match lookup_variations shortName TEAM_NAME_VARIATIONS with
  | Some variants => variants
  | None => [shortName]
  end.

Definition preferred (variations : list string) : string :=
  show (variations !! 0%nat).

Definition variantAt (variations : list string) (i : nat) : string :=
  match variations !! i with
  | Some s => s
  | None => preferred variations
  end.

Definition exactPhrases (a b : string) : string :=
  String "034"%char
    (a +:+ String "034"%char
             (" AND " +:+ String "034"%char (b +:+ String "034"%char ""))).

Definition variationStrategy (homeVariations awayVariations : list string) (i : nat)
  : string * string :=
  ("variation-" +:+ pretty i,
   exactPhrases (variantAt homeVariations i) (variantAt awayVariations i)).

Definition strategies_spec (homeTeam awayTeam : string) : list (string * string) :=
  let homeVariations := variantsFor homeTeam in
  let awayVariations := variantsFor awayTeam in
  [ ("exact", exactPhrases homeTeam awayTeam) ]
  ++ (if String.eqb (preferred homeVariations) homeTeam
         && String.eqb (preferred awayVariations) awayTeam
      then []
      else [ ("full-names",
              exactPhrases (preferred homeVariations) (preferred awayVariations)) ])
  ++ [ ("unquoted", preferred homeVariations +:+ " " +:+ preferred awayVariations) ]
  ++ map (variationStrategy homeVariations awayVariations)
         (seq 1 (Nat.max (length homeVariations) (length awayVariations) - 1)).

(** Try the strategies in turn and answer with the first that has
    articles. *)
Fixpoint firstWithArticles (options : list (string * value))
         (strategies : list (string * string)) : M HttpResponse :=
  match strategies with
  | [] => ret notFound
  | (name, query) :: rest =>
      let! articles := searchGuardianArticles query options in
      let! some := lift (hasArticles articles) in
      if some then ret (found articles name)
      else firstWithArticles options rest
  end.

(** Run the searches of [queries] one after the other, whatever they
    find. *)
Fixpoint searchAll (options : list (string * value)) (queries : list string)
  : M (list value) :=
  match queries with
  | [] => ret []
  | query :: rest =>
      let! articles := searchGuardianArticles query options in
      let! others := searchAll options rest in
      ret (articles :: others)
  end.

(** What the table of names is relied on for: no list and no name in it is
    empty, and a list of one name holds the short name itself. *)
Definition entry_ok (entry : string * list string) : bool :=
  match snd entry with
  | [] => false
  | p :: rest =>
      forallb (fun s => negb (String.eqb s "")) (p :: rest)
      && (String.eqb p (fst entry) || negb (Nat.eqb (length rest) 0))
  end.

(** The key, the parameters and the freshness test of an article search,
    and the value [fetchGuardianData] makes of an answer. *)
Definition searchKey (query : string) (options : list (string * value)) : string :=
  query +:+ "-" +:+ JSON_stringify options.

Definition searchParams (query : string) (options : list (string * value))
  : list (string * value) :=
  spread [ ("q", VStr query);
           ("section", VStr "football");
           ("page-size", js_or (assoc "pageSize" options) (VNum 5)) ]
         options.

Definition freshArticle (n : Z) (slot : option ArticleEntry) : option value :=
  match slot with
  | Some entry =>
      if truthy (VNum (article_timestamp entry))
         && (n - article_timestamp entry <? 1800000)%Z
      then Some (article_data entry)
      else None
  | None => None
  end.

Definition guardianBody (answer : Outcome) : value :=
  match answer with
  | Response status _ (Return d) => if ok status then d else VNull
  | _ => VNull
  end.

(** What an article search sends when the caller's options name none of it,
    and the value the options give a name: the last they give it, if any. *)
Definition searchDefaults (query : string) (options : list (string * value))
  : list (string * value) :=
  [ ("api-key", string_value GUARDIAN_API_KEY);
    ("show-fields", VStr "headline,byline,trailText,body,thumbnail");
    ("q", VStr query);
    ("section", VStr "football");
    ("page-size", js_or (assoc "pageSize" options) (VNum 5)) ].

Fixpoint overriding (k : string) (props : list (string * value)) : option value :=
  match props with
  | [] => None
  | (k', v) :: rest =>
      match overriding k rest with
      | Some v' => Some v'
      | None => if String.eqb k k' then Some v else None
      end
  end.

Definition queryParams_of (r : Request) : list (string * value) :=
  match r with
  | GuardianRequest _ queryParams => queryParams
  | FootballRequest _ _ => []
  end.

(** The names under which [/api/health] reports. *)
Definition namedKeys : list string :=
  [ "standings"; "matches"; "scorers"; "teams"; "competition";
    "standingsLast"; "matchesLast" ].

(** A row of the table of names holds its own short name and at most three
    names. *)
Definition entry_names_key (entry : string * list string) : bool :=
  existsb (String.eqb (fst entry)) (snd entry)
  && (length (snd entry) <=? 3)%nat.

(** ** Sample environments

    Concrete clocks, providers and worlds, for the examples that follow the
    theorems. *)

(** A clock that reads the elements of [l] in turn, then 0. *)
Definition clock_of (l : list Z) : nat -> Z := fun n => nth n l 0%Z.

(** A clock stopped at [t]. *)
Definition clock_at (t : Z) : nat -> Z := fun _ => t.

(** A provider that answers every request with [o]. *)
Definition answers (o : Outcome) : nat -> Request -> Outcome := fun _ _ => o.

(** The body of an error page: [response.json()] rejects on it. *)
Definition not_json : result value :=
  Throw (FetchError "invalid json response body at https://api.football-data.org/v4/competitions/PL/standings reason: Unexpected token < in JSON at position 0").

Definition sample_standings : value :=
  VObj [ ("competition", VObj [ ("code", VStr "PL") ]); ("standings", VArr []) ].

(** The cache some time after a fetch of the standings at time 1000. *)
Definition warm_world : World :=
  {| cache := <["standings" := mkEntry sample_standings (Some 1000%Z) 300000]> initial_cache;
     guardianArticles := ∅;
     events := 3;
     requests := [FootballRequest (API_BASE +:+ "/competitions/PL/standings") "key"] |}.


(** [JSON.stringify] on the flat objects of strings and numbers the routes
    pass as options (none of the strings needs an escape). *)
Fixpoint stringify_props (props : list (string * value)) : string :=
  match props with
  | [] => ""
  | (k, v) :: rest =>
      quoted k +:+ ":"
      +:+ match v with
          | VStr s => quoted s
          | VNum n => pretty n
          | _ => "null"
          end
      +:+ match rest with
          | [] => ""
          | _ => ","
          end
      +:+ stringify_props rest
  end.

Definition sample_stringify (props : list (string * value)) : string :=
  "{" +:+ stringify_props props +:+ "}".

(** A meeting of the head-to-head payload. *)
Definition sample_match (utcDate : string) (home away : Z) (winner : string) : value :=
  VObj [ ("utcDate", VStr utcDate);
         ("homeTeam", VObj [ ("name", VStr "Arsenal FC"); ("shortName", VStr "Arsenal") ]);
         ("awayTeam", VObj [ ("name", VStr "Chelsea FC") ]);
         ("score", VObj [ ("winner", VStr winner);
                          ("fullTime", VObj [ ("home", VNum home); ("away", VNum away) ]) ]) ].

(** The aggregates of the specification's example, with six meetings. *)
Definition sample_head2head : value :=
  VObj [ ("aggregates",
          VObj [ ("homeTeam", VObj [ ("wins", VNum 3) ]);
                 ("awayTeam", VObj [ ("wins", VNum 2) ]);
                 ("draws", VNum 1);
                 ("numberOfMatches", VNum 6) ]);
         ("matches",
          VArr [ sample_match "2024-04-23" 5 0 "HOME_TEAM";
                 sample_match "2023-10-21" 2 2 "DRAW";
                 sample_match "2023-05-02" 3 1 "HOME_TEAM";
                 sample_match "2022-11-06" 0 1 "AWAY_TEAM";
                 sample_match "2022-04-20" 2 4 "AWAY_TEAM";
                 sample_match "2021-08-22" 2 0 "HOME_TEAM" ]) ].

(** The payload for two teams that have never met: no meeting, and
    aggregates that count none. *)
Definition no_meetings : value :=
  VObj [ ("aggregates",
          VObj [ ("numberOfMatches", VNum 0);
                 ("totalGoals", VNum 0);
                 ("homeTeam", VObj [ ("id", VNum 57); ("name", VStr "Arsenal FC");
                                     ("wins", VNum 0); ("draws", VNum 0); ("losses", VNum 0) ]);
                 ("awayTeam", VObj [ ("id", VNum 349); ("name", VStr "Ipswich Town FC");
                                     ("wins", VNum 0); ("draws", VNum 0); ("losses", VNum 0) ]) ]);
         ("matches", VArr []) ].

(** The stats the route builds from [no_meetings]. *)
Definition zero_stats : value :=
  VObj [ ("homeTeam", VObj [ ("name", VStr "Arsenal FC"); ("wins", VNum 0);
                             ("draws", VNum 0); ("losses", VNum 0) ]);
         ("awayTeam", VObj [ ("name", VStr "Ipswich Town FC"); ("wins", VNum 0);
                             ("draws", VNum 0); ("losses", VNum 0) ]);
         ("totalMatches", VNum 0);
         ("recentMatches", VArr []) ].

(** The world after a first head-to-head request for match 327123, answered
    at time 1000, from the initial one. *)
Definition after_head2head : World :=
  {| cache := <["head2head-327123" := mkEntry sample_head2head (Some 1000%Z) 300000]>
                initial_cache;
     guardianArticles := ∅;
     events := 2;
     requests := [FootballRequest
                    (API_BASE +:+ "/matches/327123/head2head?limit=10") "key"] |}.

(** A Guardian that has one article for the query [Manchester City Arsenal]
    and none for any other. *)
Definition sample_article : value :=
  VObj [ ("id", VStr "football/2024/mar/31/manchester-city-arsenal-match-report");
         ("webTitle", VStr "Manchester City 0-0 Arsenal") ].

Definition guardian_unquoted_only : nat -> Request -> Outcome :=
  fun _ r =>
    match r with
    | GuardianRequest _ queryParams =>
        match assoc "q" queryParams with
        | VStr "Manchester City Arsenal" =>
            Response 200 "OK"
              (Return (VObj [ ("response",
                             VObj [ ("total", VNum 1);
                                    ("results", VArr [sample_article]) ]) ]))
        | _ =>
            Response 200 "OK"
              (Return (VObj [ ("response",
                             VObj [ ("total", VNum 0); ("results", VArr []) ]) ]))
        end
    | FootballRequest _ _ => Rejected (FetchError "ENOTFOUND")
    end.

(** A Guardian that has one article for the query [constructor Arsenal]
    and none for any other. *)
Definition guardian_constructor_only : nat -> Request -> Outcome :=
  fun _ r =>
    match r with
    | GuardianRequest _ queryParams =>
        match assoc "q" queryParams with
        | VStr "constructor Arsenal" =>
            Response 200 "OK"
              (Return (VObj [ ("response",
                               VObj [ ("total", VNum 1);
                                      ("results", VArr [sample_article]) ]) ]))
        | _ =>
            Response 200 "OK"
              (Return (VObj [ ("response",
                               VObj [ ("total", VNum 0); ("results", VArr []) ]) ]))
        end
    | FootballRequest _ _ => Rejected (FetchError "ENOTFOUND")
    end.

(** A later payload of the standings, a head-to-head payload whose only
    meeting is [null], and the error reading it raises. *)
Definition newer_standings : value :=
  VObj [ ("competition", VObj [ ("code", VStr "PL") ]);
         ("standings", VArr [ VObj [ ("stage", VStr "REGULAR_SEASON") ] ]) ].

Definition malformed_head2head : value :=
  VObj [ ("aggregates", VObj [ ("numberOfMatches", VNum 1) ]);
         ("matches", VArr [VNull]) ].

Definition malformed_error : error :=
  TypeError "Cannot read properties of null (reading 'utcDate')".

(** Five meetings. *)
Definition five_meetings : list value :=
  [ sample_match "2024-04-23" 5 0 "HOME_TEAM";
    sample_match "2023-10-21" 2 2 "DRAW";
    sample_match "2023-05-02" 3 1 "HOME_TEAM";
    sample_match "2022-11-06" 0 1 "AWAY_TEAM";
    sample_match "2022-04-20" 2 4 "AWAY_TEAM" ].

(** ** Properties of the cache *)

(** What [present] leaves out, value by value. *)
Lemma present_iff v :
  present v <->
  v <> VUndefined /\ v <> VNull /\ v <> VBool false /\ v <> VNum 0 /\ v <> VStr "".
Proof.
  unfold present. destruct v as [| |[|]|n|s| |]; cbn;
    try (split; [intros _; repeat split; discriminate | reflexivity]);
    try (split; [discriminate | intros (? & ? & ? & ? & ?); congruence]).
  - destruct (Z.eqb_spec n 0) as [->|Hn]; cbn.
    + split; [discriminate | intros (? & ? & ? & ? & ?); congruence].
    + split; [intros _; repeat split; congruence | reflexivity].
  - destruct (String.eqb_spec s "") as [->|Hs]; cbn.
    + split; [discriminate | intros (? & ? & ? & ? & ?); congruence].
    + split; [intros _; repeat split; congruence | reflexivity].
Qed.

Lemma isCacheValid_Return cacheKey w :
  exists b, fst (isCacheValid cacheKey w) = Return b.
Proof.
  unfold isCacheValid.
  destruct (cache w !! cacheKey) as [e|]; [|by eexists].
  destruct (negb (truthy (data e)) || _); by eexists.
Qed.

Lemma isCacheValid_true cacheKey w :
  fst (isCacheValid cacheKey w) = Return true <->
  exists e, cache w !! cacheKey = Some e
            /\ present (data e)
            /\ present (timestamp_value (timestamp e))
            /\ (Date_now (events w) - timestamp_number (timestamp e) < ttl e)%Z.
Proof.
  unfold isCacheValid, present.
  destruct (cache w !! cacheKey) as [e|]; cbn.
  - destruct (truthy (data e)) eqn:Hd, (truthy (timestamp_value (timestamp e))) eqn:Ht; cbn.
    + split.
      * intros [= H]. exists e. apply Z.ltb_lt in H. done.
      * intros (e' & [= <-] & _ & _ & H). f_equal. by apply Z.ltb_lt.
    + split; [done|]. intros (e' & [= <-] & _ & ? & _). congruence.
    + split; [done|]. intros (e' & [= <-] & ? & _). congruence.
    + split; [done|]. intros (e' & [= <-] & ? & _). congruence.
  - split; [done|]. intros (e' & ? & _). done.
Qed.

(** [isCacheValid] changes neither the cache nor the log of requests. *)
Lemma isCacheValid_frame cacheKey w :
  cache (snd (isCacheValid cacheKey w)) = cache w
  /\ guardianArticles (snd (isCacheValid cacheKey w)) = guardianArticles w
  /\ requests (snd (isCacheValid cacheKey w)) = requests w.
Proof.
  unfold isCacheValid.
  destruct (cache w !! cacheKey) as [e|]; [|done].
  destruct (negb (truthy (data e)) || _); done.
Qed.

Lemma getCachedOrFetch_hit cacheKey endpoint w :
  fst (isCacheValid cacheKey w) = Return true ->
  exists e, cache w !! cacheKey = Some e
            /\ getCachedOrFetch cacheKey endpoint w
               = (Return (data e), snd (isCacheValid cacheKey w)).
Proof.
  intros Hv.
  destruct (proj1 (isCacheValid_true cacheKey w) Hv) as (e & He & _).
  exists e. split; [done|].
  unfold getCachedOrFetch, bind.
  destruct (isCacheValid cacheKey w) as [r w'] eqn:Hi.
  cbn in Hv. subst r.
  pose proof (isCacheValid_frame cacheKey w) as (Hc & _). rewrite Hi in Hc. cbn in Hc.
  cbn. by rewrite Hc, He.
Qed.

(** What [fetchFootballData] does with each answer of the provider. *)
Lemma fetchFootballData_eq endpoint w :
  fetchFootballData endpoint w =
  (match fetch (events w) (footballRequest endpoint) with
   | Rejected e => Throw e
   | Response status statusText json =>
       if (status =? 403)%Z then
         Throw (Error "API key required or rate limit exceeded. Get free key at: https://www.football-data.org/client/register")
       else if (status =? 429)%Z then
         Throw (Error "Rate limit exceeded. Wait a minute or add API key.")
       else if negb (ok status) then
         Throw (Error ("API returned " +:+ pretty status +:+ ": " +:+ statusText))
       else
         json
   end,
   sent (footballRequest endpoint) w).
Proof.
  unfold fetchFootballData, try_catch, bind, call, footballRequest.
  destruct (fetch _ _) as [e|status statusText json]; [done|].
  destruct (status =? 403)%Z; [done|].
  destruct (status =? 429)%Z; [done|].
  destruct (negb (ok status)); [done|].
  by destruct json.
Qed.

Lemma fetchFootballData_world endpoint w :
  snd (fetchFootballData endpoint w) = sent (footballRequest endpoint) w.
Proof. by rewrite fetchFootballData_eq. Qed.

Lemma store_eq cacheKey d n (c : gmap string CacheEntry) :
  alter (fun e => mkEntry (data e) (Some n) (ttl e)) cacheKey
    (alter (fun e => mkEntry d (timestamp e) (ttl e)) cacheKey
       (match c !! cacheKey with
        | Some _ => c
        | None => <[cacheKey := fresh 300000]> c
        end))
  = <[cacheKey := mkEntry d (Some n) (slot_ttl (c !! cacheKey))]> c.
Proof.
  apply map_eq. intros k.
  destruct (decide (k = cacheKey)) as [->|Hne].
  - rewrite lookup_insert_eq, !lookup_alter_eq.
    destruct (c !! cacheKey) as [e|] eqn:He; cbn.
    + by rewrite He.
    + by rewrite lookup_insert_eq.
  - rewrite lookup_insert_ne by done. rewrite !lookup_alter_ne by done.
    destruct (c !! cacheKey); [done|]. by rewrite lookup_insert_ne.
Qed.

(** A miss followed by a fetch that succeeds. *)
Lemma getCachedOrFetch_miss_Return cacheKey endpoint w d :
  fst (isCacheValid cacheKey w) = Return false ->
  fst (fetchFootballData endpoint (snd (isCacheValid cacheKey w))) = Return d ->
  getCachedOrFetch cacheKey endpoint w =
  (Return d,
   let w0 := snd (isCacheValid cacheKey w) in
   {| cache := <[cacheKey := mkEntry d (Some (Date_now (S (events w0))))
                                     (slot_ttl (cache w !! cacheKey))]> (cache w);
      guardianArticles := guardianArticles w;
      events := S (S (events w0));
      requests := requests w ++ [footballRequest endpoint] |}).
Proof.
  intros Hv Hf.
  pose proof (isCacheValid_frame cacheKey w) as (Hc & Hg & Hr).
  unfold getCachedOrFetch, bind.
  destruct (isCacheValid cacheKey w) as [r w0] eqn:Hi. cbn in *. subst r.
  pose proof (fetchFootballData_world endpoint w0) as Hw.
  destruct (fetchFootballData endpoint w0) as [r w1]. cbn in *. subst r w1.
  unfold now, ret, set_cache, sent, tick. cbn.
  rewrite Hc, Hg, Hr.
  destruct (cache w !! cacheKey) as [e|] eqn:He; cbn.
  - pose proof (store_eq cacheKey d (Date_now (S (events w0))) (cache w)) as Hs.
    rewrite He in Hs. cbn in Hs. by rewrite Hs.
  - pose proof (store_eq cacheKey d (Date_now (S (events w0))) (cache w)) as Hs.
    rewrite He in Hs. cbn in Hs. by rewrite Hs.
Qed.

(** A miss followed by a fetch that fails. *)
Lemma getCachedOrFetch_miss_Throw cacheKey endpoint w e :
  fst (isCacheValid cacheKey w) = Return false ->
  fst (fetchFootballData endpoint (snd (isCacheValid cacheKey w))) = Throw e ->
  getCachedOrFetch cacheKey endpoint w =
  (Throw e, sent (footballRequest endpoint) (snd (isCacheValid cacheKey w))).
Proof.
  intros Hv Hf.
  unfold getCachedOrFetch, bind.
  destruct (isCacheValid cacheKey w) as [r w0] eqn:Hi. cbn in *. subst r.
  pose proof (fetchFootballData_world endpoint w0) as Hw.
  destruct (fetchFootballData endpoint w0) as [r w1]. cbn in *. by subst r w1.
Qed.

(** C2.  An entry is valid exactly when its data is present, its timestamp
    is present and the clock, read now, is less than [ttl] past the
    timestamp; and on a valid entry [getCachedOrFetch] returns the stored
    data, sends nothing upstream and leaves the cache as it is.  Present is
    what the code tests with [!x]: the value is none of [undefined], [null],
    [false], [0] and the empty string. *)
Theorem valid_entry_is_served cacheKey endpoint w :
  (fst (isCacheValid cacheKey w) = Return true <->
   exists e, cache w !! cacheKey = Some e
             /\ present (data e)
             /\ present (timestamp_value (timestamp e))
             /\ (Date_now (events w) - timestamp_number (timestamp e) < ttl e)%Z)
  /\ (fst (isCacheValid cacheKey w) = Return true ->
      exists e, cache w !! cacheKey = Some e
                /\ fst (getCachedOrFetch cacheKey endpoint w) = Return (data e)
                /\ requests (snd (getCachedOrFetch cacheKey endpoint w)) = requests w
                /\ cache (snd (getCachedOrFetch cacheKey endpoint w)) = cache w)
  /\ (forall v,
         present v <->
         v <> VUndefined /\ v <> VNull /\ v <> VBool false /\ v <> VNum 0 /\ v <> VStr "").
Proof.
  split; [apply isCacheValid_true|]. split; [|apply present_iff].
  intros Hv.
  destruct (getCachedOrFetch_hit cacheKey endpoint w Hv) as (e & He & Hg).
  pose proof (isCacheValid_frame cacheKey w) as (Hc & _ & Hr).
  exists e. rewrite Hg. cbn. done.
Qed.

(** C3.  When the entry is not valid and the fetch it triggers fails, the
    failure reaches the caller as it was thrown and the whole cache, the
    entry of the key included, is what it was; and whatever the outcome of
    a call, an entry found in the cache afterwards was there before or
    holds the value a successful fetch returned. *)
Theorem failed_fetch_leaves_cache cacheKey endpoint w :
  (forall e,
      fst (isCacheValid cacheKey w) = Return false ->
      fst (fetchFootballData endpoint (snd (isCacheValid cacheKey w))) = Throw e ->
      fst (getCachedOrFetch cacheKey endpoint w) = Throw e
      /\ cache (snd (getCachedOrFetch cacheKey endpoint w)) = cache w
      /\ cache (snd (getCachedOrFetch cacheKey endpoint w)) !! cacheKey
         = cache w !! cacheKey)
  /\ (forall k entry,
         cache (snd (getCachedOrFetch cacheKey endpoint w)) !! k = Some entry ->
         cache w !! k = Some entry
         \/ (k = cacheKey
             /\ fst (fetchFootballData endpoint (snd (isCacheValid cacheKey w)))
                = Return (data entry))).
Proof.
  pose proof (isCacheValid_frame cacheKey w) as (Hc & _ & _).
  split.
  - intros e Hv Hf.
    rewrite (getCachedOrFetch_miss_Throw _ _ _ _ Hv Hf). cbn.
    by rewrite Hc.
  - intros k entry.
    destruct (isCacheValid_Return cacheKey w) as [[|] Hv].
    + destruct (getCachedOrFetch_hit cacheKey endpoint w Hv) as (e & _ & ->).
      cbn. rewrite Hc. by left.
    + destruct (fst (fetchFootballData endpoint (snd (isCacheValid cacheKey w))))
        as [d|err] eqn:Hf.
      * rewrite (getCachedOrFetch_miss_Return _ _ _ _ Hv Hf). cbn.
        destruct (decide (k = cacheKey)) as [->|Hne].
        -- rewrite lookup_insert_eq. intros [= <-]. by right.
        -- rewrite lookup_insert_ne by done. by left.
      * rewrite (getCachedOrFetch_miss_Throw _ _ _ _ Hv Hf). cbn.
        rewrite Hc. by left.
Qed.

(** C9, as the code has it.  For a key that is not a property of the
    initial cache and has no slot yet, a fetch that succeeds creates the slot
    with a [ttl] of five minutes, stores the fetched value under the reading
    of the clock taken after the fetch, and returns the value.  While that
    entry stands, a later call made less than [ttl] after the reading
    returns the stored value and sends nothing upstream, provided the
    fetched value is present (and the reading, which is for any time after
    the epoch): a value that is not is stored but not served. *)
Theorem dynamic_key_is_created cacheKey endpoint w d :
  ~ In cacheKey preRegistered ->
  cache w !! cacheKey = None ->
  fst (fetchFootballData endpoint w) = Return d ->
  let w1 := snd (getCachedOrFetch cacheKey endpoint w) in
  let stored := Date_now (S (events w)) in
  fst (getCachedOrFetch cacheKey endpoint w) = Return d
  /\ cache w1 !! cacheKey = Some (mkEntry d (Some stored) 300000)
  /\ requests w1 = (requests w ++ [footballRequest endpoint])%list
  /\ (forall endpoint' w2,
         cache w2 !! cacheKey = cache w1 !! cacheKey ->
         present d ->
         present (VNum stored) ->
         (Date_now (events w2) - stored < 300000)%Z ->
         fst (getCachedOrFetch cacheKey endpoint' w2) = Return d
         /\ requests (snd (getCachedOrFetch cacheKey endpoint' w2)) = requests w2).
Proof.
  intros _ Hnone Hf w1 stored.
  assert (Hi : isCacheValid cacheKey w = (Return false, w)).
  { unfold isCacheValid. by rewrite Hnone. }
  assert (Hv : fst (isCacheValid cacheKey w) = Return false) by by rewrite Hi.
  assert (Hf' : fst (fetchFootballData endpoint (snd (isCacheValid cacheKey w))) = Return d)
    by by rewrite Hi.
  pose proof (getCachedOrFetch_miss_Return _ _ _ _ Hv Hf') as Hg.
  rewrite Hi in Hg. cbn in Hg.
  assert (Hw1 : cache w1 !! cacheKey = Some (mkEntry d (Some stored) 300000)).
  { subst w1. rewrite Hg. cbn. rewrite lookup_insert_eq, Hnone. done. }
  split; [by rewrite Hg|].
  split; [done|].
  split; [subst w1; by rewrite Hg|].
  intros endpoint' w2 Hsame Hd Hs Hlt.
  rewrite Hw1 in Hsame.
  assert (Hv2 : fst (isCacheValid cacheKey w2) = Return true).
  { apply isCacheValid_true. eexists. split; [done|]. cbn. done. }
  destruct (getCachedOrFetch_hit cacheKey endpoint' w2 Hv2) as (e & He & ->).
  rewrite Hsame in He. injection He as <-. cbn.
  split; [done|]. apply isCacheValid_frame.
Qed.

(** ** The last-season routes *)

(** C4.  Both last-season routes ask for the season [currentYear - 1] when
    the month index is 7 (August) or more and [currentYear - 2] otherwise,
    [currentYear] being the year of a first reading of the clock and the
    month that of a second: after the two readings each route is its
    [getCachedOrFetch] on the endpoint of that season.  A month index of 6
    (31 July) gives [currentYear - 2], one of 7 (1 August)
    [currentYear - 1]. *)
Theorem last_season_year w :
  let currentYear := getFullYear (Date_now (events w)) in
  let currentMonth := getMonth (Date_now (S (events w))) in
  let season := lastSeasonYear_spec currentYear currentMonth in
  standingsLast w =
    try_catch
      (let! d := getCachedOrFetch "standingsLast"
                   ("/competitions/PL/standings?season=" +:+ pretty season) in
       ret (res_json d))
      (fun e => ret (failed "Failed to fetch last season standings" e))
      (tick (tick w))
  /\ matchesLast w =
    try_catch
      (let! d := getCachedOrFetch "matchesLast"
                   ("/competitions/PL/matches?season=" +:+ pretty season) in
       ret (res_json d))
      (fun e => ret (failed "Failed to fetch last season matches" e))
      (tick (tick w))
  /\ season = (if (7 <=? currentMonth)%Z then currentYear - 1 else currentYear - 2)%Z
  /\ lastSeasonYear_spec currentYear 6 = (currentYear - 2)%Z
  /\ lastSeasonYear_spec currentYear 7 = (currentYear - 1)%Z.
Proof.
  intros currentYear currentMonth season.
  assert (Hs : (if (currentMonth <? 7)%Z then (currentYear - 2)%Z else (currentYear - 1)%Z)
               = season).
  { subst season. unfold lastSeasonYear_spec.
    destruct (Z.ltb_spec currentMonth 7), (Z.leb_spec 7 currentMonth); lia. }
  repeat split.
  - unfold standingsLast, try_catch, bind, now. cbn.
    fold currentYear currentMonth. by rewrite Hs.
  - unfold matchesLast, try_catch, bind, now. cbn.
    fold currentYear currentMonth. by rewrite Hs.
Qed.

(** ** Clearing the cache *)

Lemma cacheClear_lookup w k :
  cache (snd (cacheClear w)) !! k = clearEntry <$> cache w !! k.
Proof. cbn. apply lookup_fmap. Qed.

(** C5, as the code has it.  After the clear no key is valid and no
    article search is cached; every entry of the cache object, named or
    created for a head-to-head key, is still there with its [ttl], its data
    and timestamp reset to [null]; only the entries of [guardianArticles]
    are removed. *)
Theorem clear_resets_entries w :
  let w' := snd (cacheClear w) in
  (forall k, isCacheValid k w' = (Return false, w'))
  /\ guardianArticles w' = ∅
  /\ (forall k e, cache w !! k = Some e ->
                  cache w' !! k = Some (mkEntry VNull None (ttl e)))
  /\ (forall k, cache w !! k = None -> cache w' !! k = None)
  /\ requests w' = requests w.
Proof.
  intros w'. subst w'.
  split; [|split; [done|split; [|split; [|done]]]].
  - intros k. unfold isCacheValid. rewrite cacheClear_lookup.
    by destruct (cache w !! k).
  - intros k e He. by rewrite cacheClear_lookup, He.
  - intros k He. by rewrite cacheClear_lookup, He.
Qed.

(** ** The Guardian client *)

Lemma fetchGuardianData_eq endpoint params w :
  fetchGuardianData endpoint params w =
  if truthy (string_value GUARDIAN_API_KEY) then
    (Return match fetch (events w) (guardianRequest endpoint params) with
            | Response status _ (Return d) => if ok status then d else VNull
            | _ => VNull
            end,
     sent (guardianRequest endpoint params) w)
  else (Return VNull, w).
Proof.
  unfold fetchGuardianData, try_catch, bind, call, guardianRequest.
  destruct (truthy (string_value GUARDIAN_API_KEY)); [|done]. cbn.
  destruct (fetch _ _) as [e|status statusText [d|e]]; cbn; [done| |];
    by destruct (ok status).
Qed.

Lemma searchGuardianArticles_Return query options w :
  exists v, fst (searchGuardianArticles query options w) = Return v.
Proof.
  unfold searchGuardianArticles, bind, now. cbn.
  destruct (guardianArticles w !! _) as [entry|]; cbn.
  - destruct (_ && _); cbn; [by eexists|].
    rewrite fetchGuardianData_eq.
    destruct (truthy (string_value GUARDIAN_API_KEY)); cbn.
    + destruct (truthy _ && truthy _); cbn; by eexists.
    + by eexists.
  - rewrite fetchGuardianData_eq.
    destruct (truthy (string_value GUARDIAN_API_KEY)); cbn.
    + destruct (truthy _ && truthy _); cbn; by eexists.
    + by eexists.
Qed.

(** C6.  The Guardian client does not throw.  Without the credential it
    returns [null] and the world is untouched, so no request was sent; with
    it, one request is sent and the result is the parsed body when the
    status is a success and the body parses, and [null] in every other
    case, a rejected request included.  [searchGuardianArticles] above it
    returns as well. *)
Theorem guardian_client_null_or_data endpoint params query options w :
  (truthy (string_value GUARDIAN_API_KEY) = false ->
   fetchGuardianData endpoint params w = (Return VNull, w))
  /\ (truthy (string_value GUARDIAN_API_KEY) = true ->
      fetchGuardianData endpoint params w =
      (Return match fetch (events w) (guardianRequest endpoint params) with
              | Response status _ (Return d) => if ok status then d else VNull
              | _ => VNull
              end,
       sent (guardianRequest endpoint params) w))
  /\ (exists v, fst (fetchGuardianData endpoint params w) = Return v)
  /\ (exists v, fst (searchGuardianArticles query options w) = Return v).
Proof.
  rewrite fetchGuardianData_eq.
  split; [by intros ->|].
  split; [by intros ->|].
  split; [|apply searchGuardianArticles_Return].
  destruct (truthy (string_value GUARDIAN_API_KEY)); by eexists.
Qed.

(** ** The head-to-head route *)

Lemma memberE_Return v k x : memberE v k = Return x -> x = member v k.
Proof. destruct v; cbn; congruence. Qed.

Lemma rbind_Return {A B} (r : result A) (k : A -> result B) b :
  rbind r k = Return b -> exists a, r = Return a /\ k a = Return b.
Proof. destruct r as [a|e]; cbn; [eauto|done]. Qed.

Lemma recentMatch_summary m r : recentMatch m = Return r -> r = summary m.
Proof.
  unfold recentMatch. intros H.
  repeat match type of H with
         | rbind _ _ = Return _ =>
             apply rbind_Return in H; destruct H as (? & ? & H)
         end.
  injection H as <-.
  repeat match goal with
         | H : memberE _ _ = Return _ |- _ => apply memberE_Return in H; subst
         end.
  unfold summary, js_or.
  repeat match goal with
         | H : (if ?c then _ else _) = Return _ |- _ =>
             destruct c;
             [injection H as -> | apply memberE_Return in H; subst]
         end; reflexivity.
Qed.

Lemma mapE_summary l l' : mapE recentMatch l = Return l' -> l' = map summary l.
Proof.
  revert l'. induction l as [|m l IH]; intros l' H; cbn in *.
  - by injection H as <-.
  - apply rbind_Return in H. destruct H as (r & Hr & H).
    apply rbind_Return in H. destruct H as (rs & Hrs & H).
    injection H as <-. by rewrite (recentMatch_summary _ _ Hr), (IH _ Hrs).
Qed.

Lemma js_or_number n : js_or (VNum n) (VNum 0) = VNum n.
Proof.
  unfold js_or. cbn. destruct (Z.eqb_spec n 0) as [->|]; reflexivity.
Qed.

(** C7.  The stats the route derives from a payload: the wins and the draws
    are those of the aggregates (0 for one that is missing), the losses of
    each side are the wins of the other, [totalMatches] is the aggregates'
    [numberOfMatches], and [recentMatches] is the summary of each of the
    first five elements of [matches], in their order. *)
Theorem head2head_stats_derived d response :
  present d ->
  present (member d "matches") ->
  head2headAnswer d = Return response ->
  let stats := member (body response) "stats" in
  let aggregates := member d "aggregates" in
  let home := member stats "homeTeam" in
  let away := member stats "awayTeam" in
  status response = 200%Z
  /\ member home "wins" = js_or (member (member aggregates "homeTeam") "wins") (VNum 0)
  /\ member away "wins" = js_or (member (member aggregates "awayTeam") "wins") (VNum 0)
  /\ member home "losses" = member away "wins"
  /\ member away "losses" = member home "wins"
  /\ member home "draws" = js_or (member aggregates "draws") (VNum 0)
  /\ member away "draws" = member home "draws"
  /\ member stats "totalMatches" = js_or (member aggregates "numberOfMatches") (VNum 0)
  /\ (forall n, member aggregates "numberOfMatches" = VNum n ->
                member stats "totalMatches" = VNum n)
  /\ exists matches,
      member d "matches" = VArr matches
      /\ member stats "recentMatches" = VArr (map summary (firstn 5 matches)).
Proof.
  unfold present, head2headAnswer. intros -> -> H. cbn in H.
  apply rbind_Return in H. destruct H as (stats & Hs & H). injection H as <-.
  unfold head2headStats in Hs.
  apply rbind_Return in Hs. destruct Hs as (recent & Hr & Hs). injection Hs as <-.
  cbn. repeat split.
  - intros n ->. apply js_or_number.
  - unfold recentMatches in Hr.
    destruct (member d "matches") as [| | | | |matches|]; try discriminate.
    apply rbind_Return in Hr. destruct Hr as (l & Hl & Hr). injection Hr as <-.
    exists matches. by rewrite (mapE_summary _ _ Hl).
Qed.

(** The two answers about meetings that do not exist: [stats] is [null] when
    the payload or its [matches] is missing, and an object when [matches] is
    the empty array. *)
Lemma head2headAnswer_null d :
  truthy d && truthy (member d "matches") = false ->
  head2headAnswer d
  = Return (res_json (VObj [ ("success", VBool true);
                             ("stats", VNull);
                             ("message", VStr "No previous meetings found between these teams") ])).
Proof. unfold head2headAnswer. by intros ->. Qed.

Lemma head2headAnswer_empty d :
  present d ->
  member d "matches" = VArr [] ->
  exists stats,
    head2headAnswer d
    = Return (res_json (VObj [ ("success", VBool true);
                               ("stats", stats);
                               ("allMatches", VArr []) ]))
    /\ stats <> VNull
    /\ member stats "recentMatches" = VArr [].
Proof.
  unfold present, head2headAnswer, head2headStats. intros -> ->. cbn.
  eexists. split; [reflexivity|]. split; [discriminate|reflexivity].
Qed.

Lemma head2head_eq matchId limit w :
  matchId <> "" ->
  head2head matchId limit w =
  match getCachedOrFetch (head2headKey matchId) (head2headEndpoint matchId limit) w with
  | (Return d, w') =>
      (Return match head2headAnswer d with
              | Return r => r
              | Throw e => failed "Failed to fetch head-to-head data" e
              end, w')
  | (Throw e, w') => (Return (failed "Failed to fetch head-to-head data" e), w')
  end.
Proof.
  intros Hne. unfold head2head, try_catch, bind, lift.
  assert (Ht : truthy (VStr matchId) = true).
  { cbn. destruct (String.eqb_spec matchId ""); done. }
  rewrite Ht. cbn.
  destruct (getCachedOrFetch _ _ w) as [[d|e] w']; [|done].
  by destruct (head2headAnswer d).
Qed.

(** C10, as the code has it.  The key of the head-to-head entry is made of
    [matchId] alone.  So when a request with [limit1] has missed and stored
    the payload [d] it fetched, a request for the same match with [limit2],
    made while that entry stands and less than its [ttl] after it was
    stored, is answered from [d], with the answer the first request got,
    and sends nothing upstream, provided [d] is present (and the stored
    reading of the clock, which is for any time after the epoch): a payload
    that is not is stored but not served. *)
Theorem head2head_key_ignores_limit matchId limit1 limit2 w d :
  matchId <> "" ->
  let k := head2headKey matchId in
  let w0 := snd (isCacheValid k w) in
  let w1 := snd (head2head matchId limit1 w) in
  let stored := Date_now (S (events w0)) in
  fst (isCacheValid k w) = Return false ->
  fst (fetchFootballData (head2headEndpoint matchId limit1) w0) = Return d ->
  k = "head2head-" +:+ matchId
  /\ cache w1 !! k = Some (mkEntry d (Some stored) (slot_ttl (cache w !! k)))
  /\ forall w2,
      cache w2 !! k = cache w1 !! k ->
      present d ->
      present (VNum stored) ->
      (Date_now (events w2) - stored < slot_ttl (cache w !! k))%Z ->
      fst (getCachedOrFetch k (head2headEndpoint matchId limit2) w2) = Return d
      /\ fst (head2head matchId limit2 w2) = fst (head2head matchId limit1 w)
      /\ requests (snd (head2head matchId limit2 w2)) = requests w2.
Proof.
  intros Hne k w0 w1 stored Hv Hf.
  pose proof (getCachedOrFetch_miss_Return _ _ _ _ Hv Hf) as Hg.
  cbn zeta in Hg. fold w0 in Hg.
  assert (Hw1 : cache w1 !! k = Some (mkEntry d (Some stored) (slot_ttl (cache w !! k)))).
  { subst w1. rewrite (head2head_eq _ _ _ Hne). fold k. rewrite Hg. cbn.
    by rewrite lookup_insert_eq. }
  split; [done|]. split; [done|].
  intros w2 Hsame Hd Hs Hlt. rewrite Hw1 in Hsame.
  assert (Hv2 : fst (isCacheValid k w2) = Return true).
  { apply isCacheValid_true. eexists. split; [done|]. cbn. done. }
  destruct (getCachedOrFetch_hit k (head2headEndpoint matchId limit2) w2 Hv2)
    as (e & He & Hg2).
  rewrite Hsame in He. injection He as <-. cbn in Hg2.
  rewrite !(head2head_eq _ _ _ Hne). fold k. rewrite Hg, Hg2. cbn.
  split; [done|]. split; [done|]. apply isCacheValid_frame.
Qed.

(** ** The match-article search *)

Lemma lookup_variations_In teamName table variations :
  lookup_variations teamName table = Some variations -> In (teamName, variations) table.
Proof.
  induction table as [|[name vs] table IH]; cbn; [done|].
  destruct (String.eqb_spec teamName name) as [->|_].
  - intros [= ->]. by left.
  - intros H. right. by apply IH.
Qed.

Lemma table_ok : forallb entry_ok TEAM_NAME_VARIATIONS = true.
Proof. vm_compute. reflexivity. Qed.

Lemma variantsFor_shape teamName :
  teamName <> "" ->
  exists p rest,
    variantsFor teamName = p :: rest
    /\ Forall (fun s => s <> "") (p :: rest)
    /\ (p <> teamName -> rest <> []).
Proof.
  intros Hne. unfold variantsFor.
  destruct (lookup_variations teamName TEAM_NAME_VARIATIONS) as [vs|] eqn:Hl.
  - apply lookup_variations_In in Hl.
    pose proof (proj1 (forallb_forall _ _) table_ok _ Hl) as Hok.
    unfold entry_ok in Hok. cbn [fst snd] in Hok.
    destruct vs as [|p rest]; [done|].
    apply andb_true_iff in Hok. destruct Hok as [Hall Hone].
    exists p, rest. split; [done|]. split.
    + apply List.Forall_forall. intros x Hx.
      pose proof (proj1 (forallb_forall _ _) Hall x Hx) as Hx'. cbn beta in Hx'.
      destruct (String.eqb_spec x ""); [discriminate|done].
    + intros Hp. apply orb_true_iff in Hone. destruct Hone as [Hone|Hone].
      * destruct (String.eqb_spec p teamName); done.
      * destruct rest; done.
  - exists teamName, []. split; [done|]. split; [|done].
    by apply List.Forall_cons.
Qed.

(** A name that [Object.prototype] does not define has the variants of the
    specification. *)
Lemma getTeamVariations_own teamName :
  lookup_inherited teamName Object_prototype = None ->
  getTeamVariations teamName = Names (variantsFor teamName).
Proof.
  unfold getTeamVariations, variantsFor. intros ->.
  by destruct (lookup_variations teamName TEAM_NAME_VARIATIONS).
Qed.

Lemma str_or_variantAt variations i :
  Forall (fun s => s <> "") variations ->
  str_or (variations !! i) (variations !! 0%nat) = variantAt variations i.
Proof.
  intros Hall. unfold str_or, variantAt, preferred.
  destruct (variations !! i) as [s|] eqn:Hs; [|done].
  pose proof (proj1 (Forall_lookup _ _) Hall _ _ Hs) as Hne.
  destruct (String.eqb_spec s ""); done.
Qed.

Lemma append_assoc (s1 s2 s3 : string) : (s1 +:+ s2) +:+ s3 = s1 +:+ (s2 +:+ s3).
Proof.
  induction s1 as [|c s1 IH]; [done|].
  change (String c ((s1 +:+ s2) +:+ s3) = String c (s1 +:+ (s2 +:+ s3))).
  by rewrite IH.
Qed.

Lemma quoted_exactPhrases a b : quoted a +:+ " AND " +:+ quoted b = exactPhrases a b.
Proof.
  unfold quoted, dquote, exactPhrases.
  change (String (ascii_of_nat 34) "" +:+ a +:+ String (ascii_of_nat 34) "")
    with (String "034"%char (a +:+ String "034"%char "")).
  change (String (ascii_of_nat 34) "" +:+ b +:+ String (ascii_of_nat 34) "")
    with (String "034"%char (b +:+ String "034"%char "")).
  change (String "034"%char (a +:+ String "034"%char "")
          +:+ " AND " +:+ String "034"%char (b +:+ String "034"%char ""))
    with (String "034"%char
            ((a +:+ String "034"%char "")
             +:+ " AND " +:+ String "034"%char (b +:+ String "034"%char ""))).
  by rewrite append_assoc.
Qed.

(** A handler that answers without touching the world. *)
Lemma try_catch_world {A} (m : M A) (f : error -> A) w :
  snd (try_catch m (fun e => ret (f e)) w) = snd (m w).
Proof. unfold try_catch. by destruct (m w) as [[a|e] w']. Qed.

Lemma try_catch_Return {A} (m : M A) h w a :
  fst (m w) = Return a -> fst (try_catch m h w) = Return a.
Proof. unfold try_catch. destruct (m w) as [r w']. cbn. by intros ->. Qed.

Lemma bind_cong {A B} (m : M A) (k1 k2 : A -> M B) w :
  (forall a w', k1 a w' = k2 a w') -> bind m k1 w = bind m k2 w.
Proof.
  intros H. unfold bind. destruct (m w) as [[a|e] w']; [apply H|done].
Qed.

Lemma bind_assoc {A B C} (m : M A) (f : A -> M B) (k : B -> M C) w :
  bind (bind m f) k w = bind m (fun a => bind (f a) k) w.
Proof. unfold bind. by destruct (m w) as [[a|e] w']. Qed.

(** The loop of strategy 4 runs the variations of the chain. *)
Lemma variationLoop_chain homeVariations awayVariations options n i w :
  bind (variationLoop homeVariations awayVariations options n i)
       (fun r => match r with
                 | Some r => ret r
                 | None => ret notFound
                 end) w
  = firstWithArticles options
      (map (variation homeVariations awayVariations) (seq i n)) w.
Proof.
  revert i w. induction n as [|n IH]; intros i w; [done|].
  cbn [variationLoop seq map firstWithArticles variation].
  unfold bind at 1 2 3 4 5, lift.
  destruct (searchGuardianArticles _ options w) as [[articles|e] w']; [|done].
  destruct (hasArticles articles) as [[|]|e]; [done| |done].
  apply IH.
Qed.

(** The [try] block of the handler runs its chain, for any two names. *)
Lemma guardianMatch_chain homeTeam awayTeam type w :
  homeTeam <> "" ->
  awayTeam <> "" ->
  guardianMatch (Some homeTeam) (Some awayTeam) type w
  = try_catch (firstWithArticles (searchOptions type) (strategies homeTeam awayTeam))
      (fun e => ret (failed "Failed to fetch Guardian articles" e)) w.
Proof.
  intros Hh Ha. unfold guardianMatch.
  match goal with
  | |- try_catch ?m _ _ = _ =>
      assert (Hb : m w = firstWithArticles (searchOptions type)
                           (strategies homeTeam awayTeam) w)
  end.
  2:{ unfold try_catch. by rewrite Hb. }
  cbn [string_value truthy show].
  destruct (String.eqb_spec homeTeam "") as [|_]; [done|].
  destruct (String.eqb_spec awayTeam "") as [|_]; [done|].
  cbn [negb orb].
  unfold strategies.
  set (hv := getTeamVariations homeTeam). set (av := getTeamVariations awayTeam).
  cbn [app firstWithArticles].
  apply bind_cong. intros a1 w1. apply bind_cong. intros [|] w1'; [done|].
  assert (Htail : forall w',
             (let! articles := searchGuardianArticles
                                 (show (at_index hv 0) +:+ " " +:+ show (at_index av 0))
                                 (searchOptions type) in
              let! some := lift (hasArticles articles) in
              if some then ret (found articles "unquoted")
              else
                let! response4 :=
                  variationLoop hv av (searchOptions type)
                    (turns_from_1 (Math_max (length_of hv) (length_of av))) 1 in
                match response4 with
                | Some r0 => ret r0
                | None => ret notFound
                end) w'
             = firstWithArticles (searchOptions type)
                 (("unquoted", show (at_index hv 0) +:+ " " +:+ show (at_index av 0))
                    :: map (variation hv av)
                         (seq 1 (turns_from_1 (Math_max (length_of hv) (length_of av))))) w').
  { intros w'. cbn [firstWithArticles].
    apply bind_cong. intros a3 w3. apply bind_cong. intros [|] w3'; [done|].
    apply variationLoop_chain. }
  destruct (length_gt (length_of hv) 1 || length_gt (length_of av) 1);
    cbn [andb]; [|apply Htail].
  destruct (negb (option_eqb (at_index hv 0) (Some homeTeam))
            || negb (option_eqb (at_index av 0) (Some awayTeam)));
    cbn [app firstWithArticles]; [|apply Htail].
  rewrite bind_assoc. apply bind_cong. intros a2 w2.
  rewrite bind_assoc. apply bind_cong. intros [|] w2'; [done|].
  apply Htail.
Qed.

Lemma turns_of_lengths (a b : nat) :
  turns_from_1 (Math_max (Some (Z.of_nat a)) (Some (Z.of_nat b))) = (Nat.max a b - 1)%nat.
Proof. cbn. lia. Qed.

(** For names that [Object.prototype] does not define, the chain of the
    handler is that of the specification. *)
Lemma strategies_own homeTeam awayTeam :
  homeTeam <> "" ->
  awayTeam <> "" ->
  lookup_inherited homeTeam Object_prototype = None ->
  lookup_inherited awayTeam Object_prototype = None ->
  strategies homeTeam awayTeam = strategies_spec homeTeam awayTeam.
Proof.
  intros Hh Ha Hoh Hoa. unfold strategies, strategies_spec.
  rewrite (getTeamVariations_own _ Hoh), (getTeamVariations_own _ Hoa).
  destruct (variantsFor_shape homeTeam Hh) as (hp & hrest & -> & Hhall & Hhone).
  destruct (variantsFor_shape awayTeam Ha) as (ap & arest & -> & Haall & Haone).
  cbn [length_of at_index]. rewrite turns_of_lengths.
  unfold preferred; cbn [lookup list_lookup show option_eqb].
  rewrite !quoted_exactPhrases.
  assert (Hcond :
           (length_gt (Some (Z.of_nat (length (hp :: hrest)))) 1
            || length_gt (Some (Z.of_nat (length (ap :: arest)))) 1)
           && (negb (String.eqb hp homeTeam) || negb (String.eqb ap awayTeam))
           = negb (String.eqb hp homeTeam && String.eqb ap awayTeam)).
  { unfold length_gt.
    destruct (String.eqb_spec hp homeTeam) as [|Hp],
             (String.eqb_spec ap awayTeam) as [|Hq];
      cbn [negb orb andb]; rewrite ?andb_false_r, ?orb_true_r, ?andb_true_r;
      try reflexivity.
    - specialize (Haone Hq). destruct arest; [done|].
      apply orb_true_iff. right. apply Z.ltb_lt. cbn [length]. lia.
    - specialize (Hhone Hp). destruct hrest; [done|].
      apply orb_true_iff. left. apply Z.ltb_lt. cbn [length]. lia.
    - specialize (Hhone Hp). destruct hrest; [done|].
      apply orb_true_iff. left. apply Z.ltb_lt. cbn [length]. lia. }
  rewrite Hcond.
  f_equal. f_equal.
  { by destruct (String.eqb hp homeTeam && String.eqb ap awayTeam). }
  f_equal. apply map_ext. intros i.
  unfold variation, variationStrategy. cbn [at_index].
  by rewrite !str_or_variantAt, quoted_exactPhrases.
Qed.

Lemma searchAll_cons options query rest w results :
  fst (searchAll options (query :: rest) w) = Return results ->
  exists a others,
    results = a :: others
    /\ fst (searchGuardianArticles query options w) = Return a
    /\ fst (searchAll options rest (snd (searchGuardianArticles query options w)))
       = Return others
    /\ snd (searchAll options (query :: rest) w)
       = snd (searchAll options rest (snd (searchGuardianArticles query options w))).
Proof.
  cbn [searchAll]. unfold bind.
  destruct (searchGuardianArticles query options w) as [[a|e] w1]; [|done].
  cbn [fst snd].
  destruct (searchAll options rest w1) as [[others|e] w2]; [|done].
  cbn. intros [= <-]. by exists a, others.
Qed.

Lemma searchAll_length options queries w results :
  fst (searchAll options queries w) = Return results ->
  length results = length queries.
Proof.
  revert w results. induction queries as [|query rest IH]; intros w results H.
  - cbn in H. by injection H as <-.
  - apply searchAll_cons in H. destruct H as (a & others & -> & _ & H & _).
    cbn. f_equal. by eapply IH.
Qed.

(** The chain stops at the first search that does not come out without
    articles: with its articles, or with the error of the test. *)
Lemma firstWithArticles_stops options pre name query post w results articles :
  fst (searchAll options (map snd pre ++ [query])%list w)
  = Return (results ++ [articles])%list ->
  Forall (fun r => hasArticles r = Return false) results ->
  hasArticles articles <> Return false ->
  firstWithArticles options (pre ++ (name, query) :: post)%list w
  = (rbind (hasArticles articles) (fun _ => Return (found articles name)),
     snd (searchAll options (map snd pre ++ [query])%list w)).
Proof.
  revert w results. induction pre as [|[n0 q0] pre IH]; intros w results H Hnone Hsome.
  - cbn [map app] in *.
    pose proof (searchAll_length _ _ _ _ H) as Hlen.
    destruct results as [|r results].
    2:{ rewrite length_app in Hlen. cbn in Hlen. lia. }
    apply searchAll_cons in H. destruct H as (a & others & [= <- <-] & Ha & _ & ->).
    cbn [firstWithArticles searchAll ret snd]. unfold bind, lift.
    destruct (searchGuardianArticles query options w) as [r w1]. cbn in Ha. subst r.
    destruct (hasArticles articles) as [[|]|e]; [done| |done].
    by destruct Hsome.
  - cbn [map app snd] in *.
    pose proof (searchAll_length _ _ _ _ H) as Hlen.
    destruct results as [|r results].
    { cbn in Hlen. rewrite length_app in Hlen. cbn in Hlen. lia. }
    apply searchAll_cons in H. destruct H as (a & others & [= <- <-] & Ha & Hrest & ->).
    apply Forall_cons in Hnone. destruct Hnone as [Hr Hnone].
    cbn [firstWithArticles]. unfold bind at 1 2, lift.
    destruct (searchGuardianArticles q0 options w) as [r' w1]. cbn in Ha, Hrest |- *.
    subst r'. rewrite Hr. by apply (IH w1 results).
Qed.

Lemma firstWithArticles_none options strategies w results :
  fst (searchAll options (map snd strategies) w) = Return results ->
  Forall (fun r => hasArticles r = Return false) results ->
  firstWithArticles options strategies w
  = (Return notFound, snd (searchAll options (map snd strategies) w)).
Proof.
  revert w results. induction strategies as [|[n0 q0] rest IH]; intros w results H Hnone.
  - done.
  - cbn [map snd] in *.
    apply searchAll_cons in H. destruct H as (a & others & -> & Ha & Hrest & ->).
    apply Forall_cons in Hnone. destruct Hnone as [Hr Hnone].
    cbn [firstWithArticles]. unfold bind at 1 2, lift.
    destruct (searchGuardianArticles q0 options w) as [r' w1]. cbn in Ha, Hrest |- *.
    subst r'. rewrite Hr. by apply (IH w1 others).
Qed.

Example variations_Man_City :
  getTeamVariations "Man City" = Names ["Manchester City"; "Man City"].
Proof. reflexivity. Qed.

Example variations_Burnley : getTeamVariations "Burnley" = Names ["Burnley"].
Proof. reflexivity. Qed.

Example variations_constructor : getTeamVariations "constructor" = Inherited (Some 1%Z).
Proof. reflexivity. Qed.

Example strategies_Spurs_Man_Utd :
  strategies_spec "Spurs" "Man Utd"
  = [ ("exact", exactPhrases "Spurs" "Man Utd");
      ("full-names", exactPhrases "Tottenham" "Manchester United");
      ("unquoted", "Tottenham Manchester United");
      ("variation-1", exactPhrases "Spurs" "Man Utd");
      ("variation-2", exactPhrases "Tottenham Hotspur" "Manchester Utd") ].
Proof. vm_compute. reflexivity. Qed.

Example strategies_Arsenal_Chelsea :
  strategies_spec "Arsenal" "Chelsea"
  = [ ("exact", exactPhrases "Arsenal" "Chelsea");
      ("unquoted", "Arsenal Chelsea") ].
Proof. vm_compute. reflexivity. Qed.

(** A request without one of the two teams is refused before any search. *)
Lemma guardianMatch_400 homeTeam awayTeam type w :
  truthy (string_value homeTeam) = false \/ truthy (string_value awayTeam) = false ->
  guardianMatch homeTeam awayTeam type w
  = (Return (res_status 400
               (VObj [ ("error", VStr "homeTeam and awayTeam parameters required") ])), w).
Proof.
  unfold guardianMatch, try_catch. intros [->| ->]; [done|].
  by rewrite orb_true_r.
Qed.

(** X22.  For two team names that [Object.prototype] does not define, the
    strategies of the match-article search are those of [strategies_spec],
    tried in that order.  When the searches up to some strategy are run in
    order and those before it find no article, then if it finds one the
    route answers 200 with the articles and the total of that search under
    the name of that strategy, and if the test of its result throws the
    route answers 500 with the message of the error; either way the world
    is the one left by these searches: no later strategy was tried.  When
    every strategy has been searched and none found an article, the answer
    is the empty list, a total of 0 and the strategy [none].  The route does
    not throw; and a result whose [results] is an array has articles
    exactly when the array is not empty. *)
Theorem match_search_order homeTeam awayTeam type w :
  homeTeam <> "" ->
  awayTeam <> "" ->
  lookup_inherited homeTeam Object_prototype = None ->
  lookup_inherited awayTeam Object_prototype = None ->
  let options := searchOptions type in
  let strategies := strategies_spec homeTeam awayTeam in
  (forall pre name query post results articles,
      strategies = (pre ++ (name, query) :: post)%list ->
      fst (searchAll options (map snd pre ++ [query])%list w)
      = Return (results ++ [articles])%list ->
      Forall (fun r => hasArticles r = Return false) results ->
      (hasArticles articles = Return true ->
       guardianMatch (Some homeTeam) (Some awayTeam) type w
       = (Return {| status := 200;
                    body := VObj [ ("success", VBool true);
                                   ("articles", member articles "results");
                                   ("total", member articles "total");
                                   ("searchStrategy", VStr name) ] |},
          snd (searchAll options (map snd pre ++ [query])%list w)))
      /\ (forall e,
             hasArticles articles = Throw e ->
             guardianMatch (Some homeTeam) (Some awayTeam) type w
             = (Return {| status := 500;
                          body := VObj [ ("error", VStr "Failed to fetch Guardian articles");
                                         ("details", VStr (message e)) ] |},
                snd (searchAll options (map snd pre ++ [query])%list w))))
  /\ (forall results,
         fst (searchAll options (map snd strategies) w) = Return results ->
         Forall (fun r => hasArticles r = Return false) results ->
         guardianMatch (Some homeTeam) (Some awayTeam) type w
         = (Return {| status := 200;
                      body := VObj [ ("success", VBool true);
                                     ("articles", VArr []);
                                     ("total", VNum 0);
                                     ("searchStrategy", VStr "none");
                                     ("message", VStr "No match articles found. The match may not have coverage yet, or try checking later.") ] |},
            snd (searchAll options (map snd strategies) w)))
  /\ (exists response,
         fst (guardianMatch (Some homeTeam) (Some awayTeam) type w) = Return response)
  /\ (forall articles l,
         present articles ->
         member articles "results" = VArr l ->
         hasArticles articles = Return (negb (Nat.eqb (length l) 0)))
  /\ options
     = [ ("tag", VStr (match type with
                       | Some "preview" =>
                           "tone/minutebyminute,football/series/match-previews"
                       | _ => "tone/matchreports"
                       end));
         ("page-size", VNum 5);
         ("order-by", VStr "newest") ].
Proof.
  intros Hh Ha Hoh Hoa options strategies.
  rewrite (guardianMatch_chain _ _ type w Hh Ha), (strategies_own _ _ Hh Ha Hoh Hoa).
  fold options strategies. unfold try_catch.
  split; [|split; [|split; [|split]]].
  - intros pre name query post results articles -> H Hnone. split.
    + intros Hsome.
      rewrite (firstWithArticles_stops options pre name query post w results articles
                 H Hnone) by (rewrite Hsome; discriminate).
      by rewrite Hsome.
    + intros e He.
      rewrite (firstWithArticles_stops options pre name query post w results articles
                 H Hnone) by (rewrite He; discriminate).
      by rewrite He.
  - intros results H Hnone.
    by rewrite (firstWithArticles_none options strategies w results).
  - destruct (firstWithArticles options strategies w) as [[r|e] w']; by eexists.
  - intros articles l Hp Hl. unfold hasArticles, present in *.
    rewrite Hp, Hl. cbn. f_equal. destruct l; cbn; [done|].
    apply Z.ltb_lt. lia.
  - subst options. unfold searchOptions. f_equal. f_equal. f_equal.
    destruct type as [t|]; [|done]. cbn [option_eqb].
    destruct (String.eqb_spec t "preview") as [->|Hne]; [done|].
    repeat (destruct t as [|[[|] [|] [|] [|] [|] [|] [|] [|]] t]; try done).
Qed.

(** ** Further properties: the football client and the cached routes *)

Lemma ok_not_403_429 status :
  ok status = true -> (status =? 403)%Z = false /\ (status =? 429)%Z = false.
Proof.
  unfold ok. intros H. apply andb_true_iff in H. destruct H as [_ H].
  apply Z.leb_le in H. split; apply Z.eqb_neq; lia.
Qed.

(** X1.  The football client returns a value exactly when the provider
    answers with a status from 200 to 299 and a body that parses, and the
    value is that body; whatever the answer, and with or without a
    credential, it sends one request, with the credential or the empty
    string as token, and leaves the cache and the article cache alone. *)
Theorem football_client_returns_iff_ok endpoint w d :
  (fst (fetchFootballData endpoint w) = Return d <->
   exists status statusText,
     fetch (events w) (footballRequest endpoint) = Response status statusText (Return d)
     /\ ok status = true)
  /\ requests (snd (fetchFootballData endpoint w))
     = (requests w ++ [FootballRequest (API_BASE +:+ endpoint)
                         (env_or_empty FOOTBALL_API_KEY)])%list
  /\ cache (snd (fetchFootballData endpoint w)) = cache w
  /\ guardianArticles (snd (fetchFootballData endpoint w)) = guardianArticles w.
Proof.
  rewrite fetchFootballData_eq. cbn [fst snd]. split; [|done].
  split.
  - destruct (fetch _ _) as [e|status statusText body]; [done|].
    destruct (status =? 403)%Z; [done|].
    destruct (status =? 429)%Z; [done|].
    destruct (ok status) eqn:Hok; cbn; [|done].
    destruct body as [d'|e']; [|done]. intros [= ->]. eauto.
  - intros (status & statusText & -> & Hok).
    destruct (ok_not_403_429 _ Hok) as [-> ->]. by rewrite Hok.
Qed.

Lemma cachedRoute_eq cacheKey endpoint what w :
  cachedRoute cacheKey endpoint what w =
  match getCachedOrFetch cacheKey endpoint w with
  | (Return d, w') => (Return (res_json d), w')
  | (Throw e, w') => (Return (failed what e), w')
  end.
Proof.
  unfold cachedRoute, try_catch, bind.
  by destruct (getCachedOrFetch cacheKey endpoint w) as [[d|e] w'].
Qed.

Lemma cachedRoute_Throw cacheKey endpoint what w e :
  fst (isCacheValid cacheKey w) = Return false ->
  fst (fetchFootballData endpoint (snd (isCacheValid cacheKey w))) = Throw e ->
  fst (cachedRoute cacheKey endpoint what w) = Return (failed what e)
  /\ cache (snd (cachedRoute cacheKey endpoint what w)) = cache w.
Proof.
  intros Hv Hf. rewrite cachedRoute_eq.
  rewrite (getCachedOrFetch_miss_Throw _ _ _ _ Hv Hf). cbn.
  split; [done|]. apply isCacheValid_frame.
Qed.

(** X2.  What a client of a cached route sees when the entry is not valid
    and the provider fails: always a 500 carrying the name of the route's
    failure and, as details, the message of the error; the cache is left as
    it was.  A rejected request gives its own message, 403 and 429 give the
    two fixed messages, any other status outside 200-299 gives the status
    and its text, and a body on which [response.json()] rejects gives the
    message of that rejection, whatever it is. *)
Theorem cached_route_error_table cacheKey endpoint what w :
  fst (isCacheValid cacheKey w) = Return false ->
  let answer := fetch (events (snd (isCacheValid cacheKey w))) (footballRequest endpoint) in
  let route := cachedRoute cacheKey endpoint what w in
  (forall e, answer = Rejected e ->
             fst route = Return (failed what e) /\ cache (snd route) = cache w)
  /\ (forall statusText body,
         answer = Response 403 statusText body ->
         fst route
         = Return (failed what (Error "API key required or rate limit exceeded. Get free key at: https://www.football-data.org/client/register"))
         /\ cache (snd route) = cache w)
  /\ (forall statusText body,
         answer = Response 429 statusText body ->
         fst route
         = Return (failed what (Error "Rate limit exceeded. Wait a minute or add API key."))
         /\ cache (snd route) = cache w)
  /\ (forall status statusText body,
         answer = Response status statusText body ->
         ok status = false -> status <> 403%Z -> status <> 429%Z ->
         fst route
         = Return (failed what (Error ("API returned " +:+ pretty status +:+ ": " +:+ statusText)))
         /\ cache (snd route) = cache w)
  /\ (forall status statusText e,
         answer = Response status statusText (Throw e) ->
         ok status = true ->
         fst route = Return (failed what e)
         /\ cache (snd route) = cache w).
Proof.
  intros Hv answer route. subst answer route.
  split; [|split; [|split; [|split]]].
  - intros e H. eapply cachedRoute_Throw; [exact Hv|].
    rewrite fetchFootballData_eq; cbn [fst]. by rewrite H.
  - intros statusText body0 H. eapply cachedRoute_Throw; [exact Hv|].
    rewrite fetchFootballData_eq; cbn [fst]. by rewrite H.
  - intros statusText body0 H. eapply cachedRoute_Throw; [exact Hv|].
    rewrite fetchFootballData_eq; cbn [fst]. by rewrite H.
  - intros st statusText body0 H Hok H403 H429. eapply cachedRoute_Throw; [exact Hv|].
    rewrite fetchFootballData_eq; cbn [fst]. rewrite H.
    destruct (Z.eqb_spec st 403); [done|].
    destruct (Z.eqb_spec st 429); [done|]. by rewrite Hok.
  - intros st statusText e H Hok. eapply cachedRoute_Throw; [exact Hv|].
    rewrite fetchFootballData_eq; cbn [fst]. rewrite H.
    destruct (ok_not_403_429 _ Hok) as [-> ->]. by rewrite Hok.
Qed.

(** X3.  A cached route that misses and fetches answers 200 with the payload
    as it came, after one request; a second call on the same route, while
    the entry stands and less than its [ttl] after it was stored, gets the
    same answer and sends nothing (the payload and the stored reading of the
    clock being present). *)
Theorem cached_route_second_call cacheKey endpoint what w d :
  fst (isCacheValid cacheKey w) = Return false ->
  fst (fetchFootballData endpoint (snd (isCacheValid cacheKey w))) = Return d ->
  let w1 := snd (cachedRoute cacheKey endpoint what w) in
  let stored := Date_now (S (events (snd (isCacheValid cacheKey w)))) in
  fst (cachedRoute cacheKey endpoint what w) = Return (res_json d)
  /\ requests w1 = (requests w ++ [footballRequest endpoint])%list
  /\ forall w2,
      cache w2 !! cacheKey = cache w1 !! cacheKey ->
      present d ->
      present (VNum stored) ->
      (Date_now (events w2) - stored < slot_ttl (cache w !! cacheKey))%Z ->
      fst (cachedRoute cacheKey endpoint what w2) = Return (res_json d)
      /\ requests (snd (cachedRoute cacheKey endpoint what w2)) = requests w2.
Proof.
  intros Hv Hf w1 stored.
  pose proof (getCachedOrFetch_miss_Return _ _ _ _ Hv Hf) as Hg. cbn zeta in Hg.
  assert (Hw1 : cache w1 !! cacheKey
                = Some (mkEntry d (Some stored) (slot_ttl (cache w !! cacheKey)))).
  { subst w1. rewrite cachedRoute_eq, Hg. cbn. by rewrite lookup_insert_eq. }
  split; [by rewrite cachedRoute_eq, Hg|].
  split; [subst w1; by rewrite cachedRoute_eq, Hg|].
  intros w2 Hsame Hd Hs Hlt. rewrite Hw1 in Hsame.
  assert (Hv2 : fst (isCacheValid cacheKey w2) = Return true).
  { apply isCacheValid_true. eexists. split; [done|]. cbn. done. }
  destruct (getCachedOrFetch_hit cacheKey endpoint w2 Hv2) as (e & He & Hg2).
  rewrite Hsame in He. injection He as <-.
  rewrite cachedRoute_eq, Hg2. cbn. split; [done|]. apply isCacheValid_frame.
Qed.

Lemma isCacheValid_expired cacheKey w e :
  cache w !! cacheKey = Some e ->
  present (data e) ->
  present (timestamp_value (timestamp e)) ->
  (ttl e <= Date_now (events w) - timestamp_number (timestamp e))%Z ->
  isCacheValid cacheKey w = (Return false, tick w).
Proof.
  unfold isCacheValid, present. intros -> -> -> Hle. cbn.
  unfold bind, now, ret. cbn. do 2 f_equal. apply Z.ltb_ge. lia.
Qed.

(** X4.  An entry whose age has reached its [ttl] (the bound included) is
    fetched again: one request goes out, the value returned is the new one,
    and the entry holds the new value under the new reading of the clock
    with the [ttl] it had. *)
Theorem expired_entry_is_refetched cacheKey endpoint w e d :
  cache w !! cacheKey = Some e ->
  present (data e) ->
  present (timestamp_value (timestamp e)) ->
  (ttl e <= Date_now (events w) - timestamp_number (timestamp e))%Z ->
  fst (fetchFootballData endpoint (tick w)) = Return d ->
  let w' := snd (getCachedOrFetch cacheKey endpoint w) in
  fst (getCachedOrFetch cacheKey endpoint w) = Return d
  /\ requests w' = (requests w ++ [footballRequest endpoint])%list
  /\ cache w' !! cacheKey
     = Some (mkEntry d (Some (Date_now (S (S (events w))))) (ttl e)).
Proof.
  intros He Hd Ht Hle Hf w'.
  pose proof (isCacheValid_expired _ _ _ He Hd Ht Hle) as Hi.
  assert (Hv : fst (isCacheValid cacheKey w) = Return false) by by rewrite Hi.
  assert (Hf' : fst (fetchFootballData endpoint (snd (isCacheValid cacheKey w))) = Return d)
    by by rewrite Hi.
  pose proof (getCachedOrFetch_miss_Return _ _ _ _ Hv Hf') as Hg.
  rewrite Hi in Hg. cbn in Hg. subst w'. rewrite Hg. cbn.
  split; [done|]. split; [done|]. by rewrite lookup_insert_eq, He.
Qed.

(** X5.  Whatever it does, [getCachedOrFetch] touches one slot only: the
    entries of the other keys and the article cache are as before, a slot
    that existed still exists with the [ttl] it had, and at most one request
    is added to those sent. *)
Theorem getCachedOrFetch_touches_one_slot cacheKey endpoint w :
  let w' := snd (getCachedOrFetch cacheKey endpoint w) in
  guardianArticles w' = guardianArticles w
  /\ (forall k, k <> cacheKey -> cache w' !! k = cache w !! k)
  /\ (forall e, cache w !! cacheKey = Some e ->
                exists e', cache w' !! cacheKey = Some e' /\ ttl e' = ttl e)
  /\ (requests w' = requests w
      \/ requests w' = (requests w ++ [footballRequest endpoint])%list).
Proof.
  intros w'. subst w'.
  pose proof (isCacheValid_frame cacheKey w) as (Hc & Hga & Hr).
  destruct (isCacheValid_Return cacheKey w) as [[|] Hv].
  - destruct (getCachedOrFetch_hit cacheKey endpoint w Hv) as (e0 & _ & ->). cbn.
    rewrite Hc, Hga, Hr. repeat split; eauto.
  - destruct (fst (fetchFootballData endpoint (snd (isCacheValid cacheKey w))))
      as [d|err] eqn:Hf.
    + rewrite (getCachedOrFetch_miss_Return _ _ _ _ Hv Hf). cbn.
      split; [done|]. split; [|split; [|by right]].
      * intros k Hk. by rewrite lookup_insert_ne.
      * intros e He. rewrite lookup_insert_eq, He. by eexists.
    + rewrite (getCachedOrFetch_miss_Throw _ _ _ _ Hv Hf). cbn.
      rewrite Hc, Hga, Hr. repeat split; eauto.
Qed.

Lemma isCacheValid_no_data cacheKey w :
  (forall e, cache w !! cacheKey = Some e -> truthy (data e) = false) ->
  isCacheValid cacheKey w = (Return false, w).
Proof.
  intros H. unfold isCacheValid.
  destruct (cache w !! cacheKey) as [e|]; [|done]. by rewrite (H e eq_refl).
Qed.

(** X6.  A failure is not remembered.  When a slot that holds no data (or
    does not exist) is asked for and the fetch fails, the failure is thrown
    and the next call for the key, whenever it comes, goes upstream again. *)
Theorem failed_fetch_is_retried cacheKey endpoint endpoint' w err :
  (forall e, cache w !! cacheKey = Some e -> truthy (data e) = false) ->
  fst (fetchFootballData endpoint w) = Throw err ->
  let w1 := snd (getCachedOrFetch cacheKey endpoint w) in
  fst (getCachedOrFetch cacheKey endpoint w) = Throw err
  /\ requests (snd (getCachedOrFetch cacheKey endpoint' w1))
     = (requests w ++ [footballRequest endpoint; footballRequest endpoint'])%list.
Proof.
  intros Hnone Hf w1.
  pose proof (isCacheValid_no_data _ _ Hnone) as Hi.
  assert (Hv : fst (isCacheValid cacheKey w) = Return false) by by rewrite Hi.
  assert (Hf' : fst (fetchFootballData endpoint (snd (isCacheValid cacheKey w))) = Throw err)
    by by rewrite Hi.
  pose proof (getCachedOrFetch_miss_Throw _ _ _ _ Hv Hf') as Hg. rewrite Hi in Hg.
  cbn in Hg. subst w1. rewrite Hg. cbn [fst snd]. split; [done|].
  set (w1 := sent (footballRequest endpoint) w).
  assert (Hi1 : isCacheValid cacheKey w1 = (Return false, w1)).
  { apply isCacheValid_no_data. intros e He. by apply Hnone. }
  assert (Hv1 : fst (isCacheValid cacheKey w1) = Return false) by by rewrite Hi1.
  destruct (fst (fetchFootballData endpoint' (snd (isCacheValid cacheKey w1))))
    as [d|err'] eqn:Hf1.
  - rewrite (getCachedOrFetch_miss_Return _ _ _ _ Hv1 Hf1). cbn.
    by rewrite <- app_assoc.
  - rewrite (getCachedOrFetch_miss_Throw _ _ _ _ Hv1 Hf1), Hi1. cbn.
    by rewrite <- app_assoc.
Qed.

(** ** Further properties: the article search *)

Lemma searchGuardianArticles_eq query options w :
  searchGuardianArticles query options w =
  let n := Date_now (events w) in
  let request := guardianRequest "/search" (searchParams query options) in
  match freshArticle n (guardianArticles w !! searchKey query options) with
  | Some d => (Return d, tick w)
  | None =>
      if truthy (string_value GUARDIAN_API_KEY) then
        let d := guardianBody (fetch (S (events w)) request) in
        if truthy d && truthy (member d "response") then
          (Return (member d "response"),
           set_guardianArticles
             (<[searchKey query options := mkArticle (member d "response") n]>
                (guardianArticles w))
             (sent request (tick w)))
        else (Return VNull, sent request (tick w))
      else (Return VNull, tick w)
  end.
Proof.
  unfold searchGuardianArticles, bind, now, freshArticle, searchKey. cbn.
  destruct (guardianArticles w !! _) as [entry|]; cbn.
  - destruct (_ && _); cbn; [done|].
    rewrite fetchGuardianData_eq. unfold searchParams, guardianBody.
    destruct (truthy (string_value GUARDIAN_API_KEY)); cbn; [|done].
    by destruct (truthy _ && truthy _).
  - rewrite fetchGuardianData_eq. unfold searchParams, guardianBody.
    destruct (truthy (string_value GUARDIAN_API_KEY)); cbn; [|done].
    by destruct (truthy _ && truthy _).
Qed.

(** X7.  An article search that misses and gets a response from the Guardian
    returns it and stores it under the query and the options, with the
    reading of the clock taken before the request; while that entry stands,
    the same search made less than 30 minutes after that reading returns the
    stored response after reading the clock only: nothing is sent (the
    reading being present). *)
Theorem search_result_is_cached query options w :
  truthy (string_value GUARDIAN_API_KEY) = true ->
  freshArticle (Date_now (events w)) (guardianArticles w !! searchKey query options) = None ->
  let request := guardianRequest "/search" (searchParams query options) in
  let d := guardianBody (fetch (S (events w)) request) in
  let w1 := snd (searchGuardianArticles query options w) in
  present d ->
  present (member d "response") ->
  fst (searchGuardianArticles query options w) = Return (member d "response")
  /\ guardianArticles w1 !! searchKey query options
     = Some (mkArticle (member d "response") (Date_now (events w)))
  /\ requests w1 = (requests w ++ [request])%list
  /\ forall w2,
      guardianArticles w2 !! searchKey query options
      = guardianArticles w1 !! searchKey query options ->
      present (VNum (Date_now (events w))) ->
      (Date_now (events w2) - Date_now (events w) < 1800000)%Z ->
      searchGuardianArticles query options w2 = (Return (member d "response"), tick w2).
Proof.
  intros Hkey Hmiss request d w1 Hd Hr. unfold present in *.
  assert (Hw1 : guardianArticles w1 !! searchKey query options
                = Some (mkArticle (member d "response") (Date_now (events w)))).
  { subst w1. rewrite searchGuardianArticles_eq. cbn zeta. rewrite Hmiss, Hkey.
    fold request. fold d. rewrite Hd, Hr. cbn. by rewrite lookup_insert_eq. }
  rewrite Hw1. subst w1.
  rewrite searchGuardianArticles_eq. cbn zeta. rewrite Hmiss, Hkey.
  fold request. fold d. rewrite Hd, Hr. cbn [andb fst snd].
  split; [done|]. split; [done|]. split; [done|].
  intros w2 Hsame Hs Hlt.
  rewrite searchGuardianArticles_eq. cbn zeta. rewrite Hsame.
  cbn [freshArticle article_timestamp article_data].
  by rewrite Hs, (proj2 (Z.ltb_lt _ _) Hlt).
Qed.

(** X8.  An article search never touches the football cache, changes no
    other entry of the article cache than its own, and sends at most one
    request; when it returns [null] it has stored nothing, so the next one
    tries again; and without the credential it sends nothing and stores
    nothing. *)
Theorem search_touches_one_article query options w :
  let w' := snd (searchGuardianArticles query options w) in
  cache w' = cache w
  /\ (forall k, k <> searchKey query options ->
                guardianArticles w' !! k = guardianArticles w !! k)
  /\ (fst (searchGuardianArticles query options w) = Return VNull ->
      guardianArticles w' = guardianArticles w)
  /\ (requests w' = requests w
      \/ requests w'
         = (requests w ++ [guardianRequest "/search" (searchParams query options)])%list)
  /\ (truthy (string_value GUARDIAN_API_KEY) = false ->
      requests w' = requests w /\ guardianArticles w' = guardianArticles w).
Proof.
  intros w'. subst w'. rewrite searchGuardianArticles_eq. cbn zeta.
  destruct (freshArticle _ _) as [d|]; cbn.
  { repeat split; eauto; discriminate. }
  destruct (truthy (string_value GUARDIAN_API_KEY)); cbn.
  2:{ repeat split; eauto; discriminate. }
  destruct (truthy _ && truthy (member _ "response")) eqn:Ht; cbn.
  - split; [done|]. split; [intros k Hk; by rewrite lookup_insert_ne|].
    split; [|split; [by right|done]].
    intros [= Hnull]. apply andb_true_iff in Ht. destruct Ht as [_ Ht].
    rewrite Hnull in Ht. done.
  - repeat split; eauto; discriminate.
Qed.

Lemma assoc_set_prop k k' v props :
  assoc k (set_prop k' v props) = if String.eqb k k' then v else assoc k props.
Proof.
  induction props as [|[k0 v0] rest IH]; cbn.
  - by destruct (String.eqb k k').
  - destruct (String.eqb_spec k' k0) as [->|Hne]; cbn.
    + by destruct (String.eqb k k0).
    + rewrite IH.
      destruct (String.eqb_spec k k0) as [->|]; [|done].
      destruct (String.eqb_spec k0 k'); [congruence|done].
Qed.

Lemma assoc_spread k a b :
  assoc k (spread a b)
  = match overriding k b with
    | Some v => v
    | None => assoc k a
    end.
Proof.
  unfold spread. revert a. induction b as [|[k' v] b IH]; intros a; cbn; [done|].
  rewrite IH, assoc_set_prop. destruct (overriding k b); [done|].
  by destruct (String.eqb k k').
Qed.

(** [set_prop] and [spread] keep the names of an object distinct, and on
    such an object the last value of a name is its only one. *)
Lemma set_prop_keys k v props x :
  List.In x (map fst (set_prop k v props)) <-> x = k \/ List.In x (map fst props).
Proof.
  induction props as [|[k0 v0] rest IH]; cbn.
  - intuition.
  - destruct (String.eqb_spec k k0) as [->|Hne]; cbn.
    + intuition.
    + rewrite IH. intuition.
Qed.

Lemma set_prop_NoDup k v props :
  List.NoDup (map fst props) -> List.NoDup (map fst (set_prop k v props)).
Proof.
  induction props as [|[k0 v0] rest IH]; cbn; intros Hnd.
  - constructor; [intros []|constructor].
  - apply List.NoDup_cons_iff in Hnd. destruct Hnd as [Hnotin Hnd].
    destruct (String.eqb_spec k k0) as [->|Hne]; cbn.
    + by apply List.NoDup_cons_iff.
    + apply List.NoDup_cons_iff. split; [|by apply IH].
      rewrite set_prop_keys. intros [->|Hin]; done.
Qed.

Lemma spread_NoDup a b :
  List.NoDup (map fst a) -> List.NoDup (map fst (spread a b)).
Proof.
  unfold spread. revert a. induction b as [|[k v] b IH]; intros a Hnd; cbn; [done|].
  apply IH. by apply set_prop_NoDup.
Qed.

Lemma overriding_None k props :
  ~ List.In k (map fst props) -> overriding k props = None.
Proof.
  induction props as [|[k0 v0] rest IH]; cbn; [done|]. intros Hnotin.
  rewrite IH by tauto.
  destruct (String.eqb_spec k k0) as [->|]; [tauto|done].
Qed.

Lemma overriding_set_prop k k' v props :
  List.NoDup (map fst props) ->
  overriding k (set_prop k' v props)
  = if String.eqb k k' then Some v else overriding k props.
Proof.
  induction props as [|[k0 v0] rest IH]; cbn; intros Hnd; [done|].
  apply List.NoDup_cons_iff in Hnd. destruct Hnd as [Hnotin Hnd].
  destruct (String.eqb_spec k' k0) as [->|Hne]; cbn.
  - destruct (String.eqb_spec k k0) as [->|]; [|done].
    by rewrite (overriding_None _ _ Hnotin).
  - rewrite (IH Hnd).
    destruct (String.eqb_spec k k') as [->|]; [|done].
    destruct (String.eqb_spec k' k0); [done|].
    by destruct (overriding k' rest).
Qed.

Lemma overriding_spread k a b :
  List.NoDup (map fst a) ->
  overriding k (spread a b)
  = match overriding k b with
    | Some v => Some v
    | None => overriding k a
    end.
Proof.
  unfold spread. revert a. induction b as [|[k' v] b IH]; intros a Hnd; cbn; [done|].
  rewrite (IH _ (set_prop_NoDup k' v a Hnd)), (overriding_set_prop _ _ _ _ Hnd).
  destruct (overriding k b); [done|]. by destruct (String.eqb k k').
Qed.

(** X9.  In the request of an article search the caller's options win: a
    parameter the options name has the value they give it (the last, were
    it named twice), be it the query, the section or the credential itself;
    any other has the default: the credential, the list of fields, the
    query, the football section and a page size of [options.pageSize] or 5.
    For the options of the match route and of the team route that is the
    credential, the fields, the query, football, 5, the tag of the match
    route and the newest-first order. *)
Theorem options_override_defaults query options type :
  (forall k,
      assoc k (queryParams_of (guardianRequest "/search" (searchParams query options)))
      = match overriding k options with
        | Some v => v
        | None => assoc k (searchDefaults query options)
        end)
  /\ guardianRequest "/search" (searchParams query (searchOptions type))
     = GuardianRequest (GUARDIAN_API_BASE +:+ "/search")
         [ ("api-key", string_value GUARDIAN_API_KEY);
           ("show-fields", VStr "headline,byline,trailText,body,thumbnail");
           ("q", VStr query);
           ("section", VStr "football");
           ("page-size", VNum 5);
           ("tag", VStr (if option_eqb type (Some "preview")
                         then "tone/minutebyminute,football/series/match-previews"
                         else "tone/matchreports"));
           ("order-by", VStr "newest") ]
  /\ guardianRequest "/search" (searchParams query teamOptions)
     = GuardianRequest (GUARDIAN_API_BASE +:+ "/search")
         [ ("api-key", string_value GUARDIAN_API_KEY);
           ("show-fields", VStr "headline,byline,trailText,body,thumbnail");
           ("q", VStr query);
           ("section", VStr "football");
           ("page-size", VNum 5);
           ("order-by", VStr "newest") ].
Proof.
  split; [|split; reflexivity].
  intros k. unfold guardianRequest, searchParams, queryParams_of, searchDefaults.
  rewrite assoc_spread, overriding_spread.
  2:{ cbn. repeat (apply List.NoDup_cons_iff; split; [cbn; intuition discriminate|]).
      constructor. }
  destruct (overriding k options); [done|].
  cbn [overriding assoc].
  destruct (String.eqb_spec k "api-key") as [->|]; [done|].
  destruct (String.eqb_spec k "show-fields") as [->|]; [done|].
  destruct (String.eqb_spec k "page-size") as [->|]; [done|].
  destruct (String.eqb_spec k "section") as [->|]; [done|].
  by destruct (String.eqb_spec k "q") as [->|].
Qed.

(** ** Further properties: the team route and the routes without credential *)

Lemma guardianTeam_eq team w :
  truthy (string_value team) = true ->
  guardianTeam team w =
  match searchGuardianArticles (quoted (show team)) teamOptions w with
  | (Return articles, w') =>
      (Return (res_json (VObj [ ("success", VBool true);
                                ("articles", js_or (member articles "results") (VArr []));
                                ("total", js_or (member articles "total") (VNum 0)) ])),
       w')
  | (Throw e, w') => (Return (failed "Failed to fetch Guardian articles" e), w')
  end.
Proof.
  intros Ht. unfold guardianTeam, try_catch, bind. rewrite Ht. cbn [negb].
  by destruct (searchGuardianArticles _ _ w) as [[a|e] w'].
Qed.

(** X10.  The team route refuses a request without [team] with a 400 and
    does nothing else; otherwise it searches the name between quotes as it
    was given, with no other name of the team, and answers 200 with the
    results of the search, or the empty list and a total of 0 when the
    search returned [null].  It never answers 500. *)
Theorem team_route_answers team w :
  (truthy (string_value team) = false ->
   guardianTeam team w
   = (Return (res_status 400 (VObj [ ("error", VStr "team parameter required") ])), w))
  /\ (truthy (string_value team) = true ->
      exists articles,
        searchGuardianArticles (quoted (show team)) teamOptions w
        = (Return articles, snd (guardianTeam team w))
        /\ fst (guardianTeam team w)
           = Return (res_json
                       (VObj [ ("success", VBool true);
                               ("articles", js_or (member articles "results") (VArr []));
                               ("total", js_or (member articles "total") (VNum 0)) ]))
        /\ (articles = VNull ->
            fst (guardianTeam team w)
            = Return (res_json (VObj [ ("success", VBool true);
                                       ("articles", VArr []);
                                       ("total", VNum 0) ]))))
  /\ (exists response,
         fst (guardianTeam team w) = Return response
         /\ (status response = 200%Z \/ status response = 400%Z)).
Proof.
  split; [|split].
  - intros Ht. unfold guardianTeam, try_catch. by rewrite Ht.
  - intros Ht. rewrite (guardianTeam_eq _ _ Ht).
    destruct (searchGuardianArticles_Return (quoted (show team)) teamOptions w) as [a Ha].
    destruct (searchGuardianArticles _ _ w) as [r w']. cbn in Ha. subst r.
    exists a. cbn [fst snd]. split; [done|]. split; [done|]. by intros ->.
  - destruct (truthy (string_value team)) eqn:Ht.
    + rewrite (guardianTeam_eq _ _ Ht).
      destruct (searchGuardianArticles_Return (quoted (show team)) teamOptions w) as [a Ha].
      destruct (searchGuardianArticles _ _ w) as [r w']. cbn in Ha. subst r.
      eexists. split; [reflexivity|]. by left.
    + unfold guardianTeam, try_catch. rewrite Ht. cbn.
      eexists. split; [reflexivity|]. by right.
Qed.

Lemma search_without_credential query options w :
  truthy (string_value GUARDIAN_API_KEY) = false ->
  searchGuardianArticles query options w
  = (Return match freshArticle (Date_now (events w))
                    (guardianArticles w !! searchKey query options) with
            | Some d => d
            | None => VNull
            end, tick w).
Proof.
  intros Hk. rewrite searchGuardianArticles_eq. cbn zeta. rewrite Hk.
  by destruct (freshArticle _ _).
Qed.

Lemma firstWithArticles_without_credential options strategies w :
  truthy (string_value GUARDIAN_API_KEY) = false ->
  requests (snd (firstWithArticles options strategies w)) = requests w
  /\ guardianArticles (snd (firstWithArticles options strategies w)) = guardianArticles w
  /\ (guardianArticles w = ∅ ->
      fst (firstWithArticles options strategies w) = Return notFound).
Proof.
  intros Hk. revert w. induction strategies as [|[name query] rest IH]; intros w.
  - by cbn.
  - cbn [firstWithArticles]. unfold bind, lift.
    rewrite (search_without_credential _ _ _ Hk).
    destruct (hasArticles _) as [[|]|e] eqn:Hh.
    + cbn. split; [done|]. split; [done|].
      intros Hempty. rewrite Hempty, lookup_empty in Hh. cbn in Hh. done.
    + destruct (IH (tick w)) as (H1 & H2 & H3). cbn in H1, H2, H3.
      split; [done|]. split; [done|]. done.
    + cbn. split; [done|]. split; [done|].
      intros Hempty. rewrite Hempty, lookup_empty in Hh. cbn in Hh. done.
Qed.

(** X11.  Without the Guardian credential the match route and the team
    route send nothing upstream and store nothing; with an empty article
    cache they answer 200 with no article: the strategy [none] for a match,
    the empty list and a total of 0 for a team. *)
Theorem without_credential_routes_degrade homeTeam awayTeam type team w :
  truthy (string_value GUARDIAN_API_KEY) = false ->
  requests (snd (guardianMatch homeTeam awayTeam type w)) = requests w
  /\ guardianArticles (snd (guardianMatch homeTeam awayTeam type w)) = guardianArticles w
  /\ requests (snd (guardianTeam team w)) = requests w
  /\ guardianArticles (snd (guardianTeam team w)) = guardianArticles w
  /\ (guardianArticles w = ∅ ->
      truthy (string_value homeTeam) = true ->
      truthy (string_value awayTeam) = true ->
      fst (guardianMatch homeTeam awayTeam type w) = Return notFound)
  /\ (guardianArticles w = ∅ ->
      truthy (string_value team) = true ->
      fst (guardianTeam team w)
      = Return (res_json (VObj [ ("success", VBool true);
                                 ("articles", VArr []);
                                 ("total", VNum 0) ]))).
Proof.
  intros Hk.
  assert (Hmatch :
           requests (snd (guardianMatch homeTeam awayTeam type w)) = requests w
           /\ guardianArticles (snd (guardianMatch homeTeam awayTeam type w))
              = guardianArticles w
           /\ (guardianArticles w = ∅ ->
               truthy (string_value homeTeam) = true ->
               truthy (string_value awayTeam) = true ->
               fst (guardianMatch homeTeam awayTeam type w) = Return notFound)).
  { destruct (truthy (string_value homeTeam)) eqn:Hh.
    2:{ rewrite guardianMatch_400 by by left. by cbn. }
    destruct (truthy (string_value awayTeam)) eqn:Ha.
    2:{ rewrite guardianMatch_400 by by right. by cbn. }
    destruct homeTeam as [h|]; [|done]. destruct awayTeam as [a|]; [|done].
    cbn in Hh, Ha.
    rewrite guardianMatch_chain, try_catch_world.
    - destruct (firstWithArticles_without_credential (searchOptions type)
                  (strategies h a) w Hk) as (H1 & H2 & H3).
      split; [done|]. split; [done|].
      intros Hempty _ _. apply try_catch_Return. auto.
    - intros ->. done.
    - intros ->. done. }
  destruct Hmatch as (M1 & M2 & M3).
  split; [done|]. split; [done|].
  destruct (truthy (string_value team)) eqn:Ht.
  - rewrite (guardianTeam_eq _ _ Ht), (search_without_credential _ _ _ Hk). cbn [fst snd].
    split; [done|]. split; [done|]. split; [done|].
    intros Hempty _. by rewrite Hempty, lookup_empty.
  - unfold guardianTeam, try_catch. rewrite Ht. cbn.
    split; [done|]. split; [done|]. split; [done|]. done.
Qed.

(** ** Further properties: the names and the number of requests *)

Lemma table_names_key : forallb entry_names_key TEAM_NAME_VARIATIONS = true.
Proof. vm_compute. reflexivity. Qed.

Lemma lookup_inherited_In name members len :
  lookup_inherited name members = Some len -> In (name, len) members.
Proof.
  induction members as [|[name' len'] members IH]; cbn; [done|].
  destruct (String.eqb_spec name name') as [->|_].
  - intros [= ->]. by left.
  - intros H. right. by apply IH.
Qed.

(** No member of [Object.prototype] is a team of the table, and the
    functions among them have at most two parameters. *)
Lemma table_shadows_nothing :
  forallb (fun entry =>
             match lookup_inherited (fst entry) Object_prototype with
             | Some _ => false
             | None => true
             end) TEAM_NAME_VARIATIONS = true.
Proof. vm_compute. reflexivity. Qed.

Lemma inherited_short :
  forallb (fun member =>
             match snd member with
             | Some len => (0 <=? len)%Z && (len <=? 2)%Z
             | None => true
             end) Object_prototype = true.
Proof. vm_compute. reflexivity. Qed.

Lemma inherited_is_no_team name len :
  lookup_inherited name Object_prototype = Some len ->
  lookup_variations name TEAM_NAME_VARIATIONS = None.
Proof.
  intros Hi.
  destruct (lookup_variations name TEAM_NAME_VARIATIONS) as [vs|] eqn:Hl; [|done].
  apply lookup_variations_In in Hl.
  pose proof (proj1 (forallb_forall _ _) table_shadows_nothing _ Hl) as Hok.
  cbn [fst] in Hok. by rewrite Hi in Hok.
Qed.

Lemma variantsFor_bounds teamName :
  In teamName (variantsFor teamName)
  /\ (1 <= length (variantsFor teamName) <= 3)%nat.
Proof.
  unfold variantsFor.
  destruct (lookup_variations teamName TEAM_NAME_VARIATIONS) as [vs|] eqn:Hl.
  - apply lookup_variations_In in Hl.
    pose proof (proj1 (forallb_forall _ _) table_names_key _ Hl) as Hok.
    unfold entry_names_key in Hok. cbn [fst snd] in Hok.
    apply andb_true_iff in Hok. destruct Hok as [Hin Hlen].
    apply existsb_exists in Hin. destruct Hin as (x & Hx & Heq).
    apply String.eqb_eq in Heq. subst x.
    apply Nat.leb_le in Hlen.
    split; [done|]. split; [|done].
    destruct vs; [done|cbn; lia].
  - split; [by left|cbn; lia].
Qed.

(** The [length] the handler reads, when it is a number, is at most 3. *)
Lemma length_of_bound teamName len :
  length_of (getTeamVariations teamName) = Some len -> (0 <= len <= 3)%Z.
Proof.
  destruct (lookup_inherited teamName Object_prototype) as [l|] eqn:Hi.
  - unfold getTeamVariations.
    rewrite (inherited_is_no_team _ _ Hi), Hi. cbn. intros ->.
    apply lookup_inherited_In in Hi.
    pose proof (proj1 (forallb_forall _ _) inherited_short _ Hi) as Hok.
    cbn [snd] in Hok. apply andb_true_iff in Hok. destruct Hok as [H0 H2].
    apply Z.leb_le in H0, H2. lia.
  - rewrite (getTeamVariations_own _ Hi). cbn. intros [= <-].
    pose proof (variantsFor_bounds teamName) as [_ H]. lia.
Qed.

(** X12.  For a name that [Object.prototype] does not define,
    [getTeamVariations] returns an array of one to three names that holds
    the name itself.  For one of the twelve names it defines, it returns
    the inherited member, not an array: no element can be read from it;
    and whatever the name, a [length] that is a number is at most 3. *)
Theorem team_name_is_a_variation teamName :
  (lookup_inherited teamName Object_prototype = None ->
   exists names,
     getTeamVariations teamName = Names names
     /\ In teamName names
     /\ (1 <= length names <= 3)%nat)
  /\ (forall len,
         lookup_inherited teamName Object_prototype = Some len ->
         getTeamVariations teamName = Inherited len
         /\ forall i, at_index (getTeamVariations teamName) i = None)
  /\ (forall len,
         length_of (getTeamVariations teamName) = Some len -> (0 <= len <= 3)%Z)
  /\ map fst Object_prototype
     = [ "constructor"; "__defineGetter__"; "__defineSetter__"; "hasOwnProperty";
         "__lookupGetter__"; "__lookupSetter__"; "isPrototypeOf";
         "propertyIsEnumerable"; "toString"; "valueOf"; "__proto__";
         "toLocaleString" ].
Proof.
  split; [|split; [|split; [|reflexivity]]].
  - intros Hi. exists (variantsFor teamName).
    split; [by apply getTeamVariations_own|]. apply variantsFor_bounds.
  - intros len Hi. unfold getTeamVariations.
    by rewrite (inherited_is_no_team _ _ Hi), Hi.
  - apply length_of_bound.
Qed.

Lemma searchGuardianArticles_requests query options w :
  requests (snd (searchGuardianArticles query options w)) = requests w
  \/ requests (snd (searchGuardianArticles query options w))
     = (requests w ++ [guardianRequest "/search" (searchParams query options)])%list.
Proof.
  rewrite searchGuardianArticles_eq. cbn zeta.
  destruct (freshArticle _ _); [by left|].
  destruct (truthy (string_value GUARDIAN_API_KEY)); [|by left].
  destruct (truthy _ && truthy (member _ "response")); by right.
Qed.

Lemma firstWithArticles_requests options strategies w :
  exists sent_now,
    requests (snd (firstWithArticles options strategies w)) = (requests w ++ sent_now)%list
    /\ (length sent_now <= length strategies)%nat.
Proof.
  revert w. induction strategies as [|[name query] rest IH]; intros w.
  - exists []. cbn. by rewrite app_nil_r.
  - cbn [firstWithArticles]. unfold bind, lift.
    pose proof (searchGuardianArticles_requests query options w) as Hr.
    destruct (searchGuardianArticles query options w) as [[a|e] w1]; cbn [snd] in Hr.
    + destruct (hasArticles a) as [[|]|e].
      * cbn. destruct Hr as [-> | ->].
        -- exists []. rewrite app_nil_r. split; [done|cbn; lia].
        -- eexists. split; [done|cbn; lia].
      * destruct (IH w1) as (l & Hl & Hlen). rewrite Hl.
        destruct Hr as [-> | ->].
        -- exists l. split; [done|cbn; lia].
        -- eexists. rewrite <- app_assoc. split; [done|]. cbn. lia.
      * cbn. destruct Hr as [-> | ->].
        -- exists []. rewrite app_nil_r. split; [done|cbn; lia].
        -- eexists. split; [done|cbn; lia].
    + cbn. destruct Hr as [-> | ->].
      * exists []. rewrite app_nil_r. split; [done|cbn; lia].
      * eexists. split; [done|cbn; lia].
Qed.

Lemma strategies_length homeTeam awayTeam :
  (length (strategies homeTeam awayTeam) <= 5)%nat.
Proof.
  unfold strategies.
  pose proof (length_of_bound homeTeam) as Hh.
  pose proof (length_of_bound awayTeam) as Ha.
  rewrite !length_app, length_map, length_seq.
  assert (Ht : (turns_from_1 (Math_max (length_of (getTeamVariations homeTeam))
                                       (length_of (getTeamVariations awayTeam))) <= 2)%nat).
  { destruct (length_of (getTeamVariations homeTeam)) as [x|]; [|cbn; lia].
    destruct (length_of (getTeamVariations awayTeam)) as [y|]; [|cbn; lia].
    specialize (Hh x eq_refl). specialize (Ha y eq_refl). cbn. lia. }
  destruct (_ && _); cbn [length]; lia.
Qed.

(** X13.  One request to the match route costs at most five requests to the
    Guardian, whatever the two teams, the names that [Object.prototype]
    defines included; a request that is refused costs none. *)
Theorem match_route_sends_at_most_five homeTeam awayTeam type w :
  (exists sent_now,
      requests (snd (guardianMatch homeTeam awayTeam type w)) = (requests w ++ sent_now)%list
      /\ (length sent_now <= 5)%nat)
  /\ (truthy (string_value homeTeam) = false \/ truthy (string_value awayTeam) = false ->
      requests (snd (guardianMatch homeTeam awayTeam type w)) = requests w).
Proof.
  split; [|by intros H; rewrite guardianMatch_400].
  destruct (truthy (string_value homeTeam)) eqn:Hh.
  2:{ rewrite guardianMatch_400 by by left. exists []. cbn.
      rewrite app_nil_r. split; [done|lia]. }
  destruct (truthy (string_value awayTeam)) eqn:Ha.
  2:{ rewrite guardianMatch_400 by by right. exists []. cbn.
      rewrite app_nil_r. split; [done|lia]. }
  destruct homeTeam as [h|]; [|done]. destruct awayTeam as [a|]; [|done].
  cbn in Hh, Ha.
  rewrite guardianMatch_chain, try_catch_world; [|by intros ->|by intros ->].
  destruct (firstWithArticles_requests (searchOptions type) (strategies h a) w)
    as (l & Hl & Hlen).
  exists l. split; [done|].
  pose proof (strategies_length h a). lia.
Qed.

(** ** Further properties: the health route and the clear *)

Lemma isCacheValid_cases cacheKey w :
  exists b w',
    isCacheValid cacheKey w = (Return b, w')
    /\ cache w' = cache w
    /\ guardianArticles w' = guardianArticles w
    /\ requests w' = requests w
    /\ (b = true ->
        exists e, cache w !! cacheKey = Some e
                  /\ present (data e)
                  /\ present (timestamp_value (timestamp e))).
Proof.
  pose proof (isCacheValid_frame cacheKey w) as (Hc & Hg & Hr).
  pose proof (isCacheValid_true cacheKey w) as Ht.
  destruct (isCacheValid_Return cacheKey w) as [b Hb].
  destruct (isCacheValid cacheKey w) as [r w'] eqn:Hi. cbn in *. subst r.
  exists b, w'. repeat split; try done.
  intros ->. destruct (proj1 Ht eq_refl) as (e & He & Hd & Hts & _). eauto.
Qed.

(** X14.  The health route only reads: it answers 200, sends nothing and
    leaves both caches as they are; each of the seven names is reported
    [true] or [false], and a name reported [true] has an entry whose data
    and timestamp are present. *)
Theorem health_only_reads w :
  exists response,
    fst (health w) = Return response
    /\ status response = 200%Z
    /\ cache (snd (health w)) = cache w
    /\ guardianArticles (snd (health w)) = guardianArticles w
    /\ requests (snd (health w)) = requests w
    /\ forall name,
        In name namedKeys ->
        (member (member (body response) "cache") name = VBool true
         \/ member (member (body response) "cache") name = VBool false)
        /\ (member (member (body response) "cache") name = VBool true ->
            exists e, cache w !! name = Some e
                      /\ present (data e)
                      /\ present (timestamp_value (timestamp e))).
Proof.
  unfold health, bind, now. cbn [fst snd].
  destruct (isCacheValid_cases "standings" (tick w)) as (b1 & w1 & -> & C1 & G1 & R1 & V1).
  destruct (isCacheValid_cases "matches" w1) as (b2 & w2 & -> & C2 & G2 & R2 & V2).
  destruct (isCacheValid_cases "scorers" w2) as (b3 & w3 & -> & C3 & G3 & R3 & V3).
  destruct (isCacheValid_cases "teams" w3) as (b4 & w4 & -> & C4 & G4 & R4 & V4).
  destruct (isCacheValid_cases "competition" w4) as (b5 & w5 & -> & C5 & G5 & R5 & V5).
  destruct (isCacheValid_cases "standingsLast" w5) as (b6 & w6 & -> & C6 & G6 & R6 & V6).
  destruct (isCacheValid_cases "matchesLast" w6) as (b7 & w7 & -> & C7 & G7 & R7 & V7).
  destruct (isCacheValid_cases "competition" w7) as (b8 & w8 & -> & C8 & G8 & R8 & V8).
  cbn [ret fst snd]. cbn [tick cache guardianArticles requests] in C1, G1, R1, V1.
  assert (Hc : cache w8 = cache w) by congruence.
  assert (Hg : guardianArticles w8 = guardianArticles w) by congruence.
  assert (Hr : requests w8 = requests w) by congruence.
  rewrite C7 in V8. rewrite C6 in V8, V7. rewrite C5 in V8, V7, V6.
  rewrite C4 in V8, V7, V6, V5. rewrite C3 in V8, V7, V6, V5, V4.
  rewrite C2 in V8, V7, V6, V5, V4, V3. rewrite C1 in V8, V7, V6, V5, V4, V3, V2.
  eexists. split; [reflexivity|]. split; [reflexivity|].
  split; [done|]. split; [done|]. split; [done|].
  intros name Hin. cbn in Hin.
  destruct Hin as [<-|[<-|[<-|[<-|[<-|[<-|[<-|[]]]]]]]]; cbn.
  - split; [destruct b1; auto|]. intros [= ->]. auto.
  - split; [destruct b2; auto|]. intros [= ->]. auto.
  - split; [destruct b3; auto|]. intros [= ->]. auto.
  - split; [destruct b4; auto|]. intros [= ->]. auto.
  - split; [destruct b8; auto|]. intros [= ->]. auto.
  - split; [destruct b6; auto|]. intros [= ->]. auto.
  - split; [destruct b7; auto|]. intros [= ->]. auto.
Qed.

Lemma cleared_has_no_data w k :
  forall e, cache (tick (snd (cacheClear w))) !! k = Some e -> truthy (data e) = false.
Proof.
  intros e. cbn. rewrite lookup_fmap.
  destruct (cache w !! k); cbn; [|done]. by intros [= <-].
Qed.

(** X15.  Asked right after a clear, the health route reports every one of
    the seven names [false], whatever the clock reads. *)
Theorem health_after_clear w :
  fst (health (snd (cacheClear w)))
  = Return (res_json
              (VObj [ ("status", VStr "OK");
                      ("message", VStr "Premier League API Backend (Football-Data.org + Guardian)");
                      ("timestamp", VStr (toISOString (Date_now (events w))));
                      ("cache",
                       VObj [ ("standings", VBool false);
                              ("matches", VBool false);
                              ("scorers", VBool false);
                              ("teams", VBool false);
                              ("competition", VBool false);
                              ("standingsLast", VBool false);
                              ("matchesLast", VBool false) ]) ])).
Proof.
  unfold health, bind, now. cbn [fst snd].
  rewrite !(isCacheValid_no_data _ _ (cleared_has_no_data w _)).
  reflexivity.
Qed.

(** X16.  Clearing twice is clearing once; and after a clear the next call
    of [getCachedOrFetch], for any key, goes upstream: exactly one request
    is added. *)
Theorem clear_then_everything_is_fetched w :
  snd (cacheClear (snd (cacheClear w))) = snd (cacheClear w)
  /\ forall cacheKey endpoint,
      requests (snd (getCachedOrFetch cacheKey endpoint (snd (cacheClear w))))
      = (requests w ++ [footballRequest endpoint])%list.
Proof.
  split.
  - cbn. f_equal. apply map_eq. intros k. rewrite !lookup_fmap.
    by destruct (cache w !! k).
  - intros cacheKey endpoint.
    set (w1 := snd (cacheClear w)).
    assert (Hi : isCacheValid cacheKey w1 = (Return false, w1)).
    { apply isCacheValid_no_data. intros e. subst w1. cbn. rewrite lookup_fmap.
      destruct (cache w !! cacheKey); cbn; [|done]. by intros [= <-]. }
    assert (Hv : fst (isCacheValid cacheKey w1) = Return false) by by rewrite Hi.
    destruct (fst (fetchFootballData endpoint (snd (isCacheValid cacheKey w1))))
      as [d|err] eqn:Hf.
    + by rewrite (getCachedOrFetch_miss_Return _ _ _ _ Hv Hf).
    + by rewrite (getCachedOrFetch_miss_Throw _ _ _ _ Hv Hf), Hi.
Qed.

(** ** Further properties: the head-to-head and last-season routes *)

Lemma head2headAnswer_Throw d e :
  head2headAnswer d = Throw e ->
  present d /\ present (member d "matches")
  /\ recentMatches (member d "matches") = Throw e.
Proof.
  unfold head2headAnswer, head2headStats, present.
  destruct (truthy d); [|done]. destruct (truthy (member d "matches")); [|done].
  cbn. destruct (recentMatches (member d "matches")); cbn; [done|].
  by intros [= ->].
Qed.

(** X17.  A payload the route cannot summarise (its [matches] is no array,
    or one of the first five meetings lacks what is read from it) is cached
    all the same.  The request that fetched it is answered 500 with the
    message of the error, and so is every request for the match made while
    the entry stands and less than its [ttl] after it was stored, without a
    call upstream (the stored reading of the clock being present). *)
Theorem malformed_head2head_is_cached matchId limit limit' w d e :
  matchId <> "" ->
  let k := head2headKey matchId in
  let w0 := snd (isCacheValid k w) in
  let w1 := snd (head2head matchId limit w) in
  let stored := Date_now (S (events w0)) in
  fst (isCacheValid k w) = Return false ->
  fst (fetchFootballData (head2headEndpoint matchId limit) w0) = Return d ->
  head2headAnswer d = Throw e ->
  fst (head2head matchId limit w)
  = Return (failed "Failed to fetch head-to-head data" e)
  /\ cache w1 !! k = Some (mkEntry d (Some stored) (slot_ttl (cache w !! k)))
  /\ forall w2,
      cache w2 !! k = cache w1 !! k ->
      present (VNum stored) ->
      (Date_now (events w2) - stored < slot_ttl (cache w !! k))%Z ->
      fst (head2head matchId limit' w2)
      = Return (failed "Failed to fetch head-to-head data" e)
      /\ requests (snd (head2head matchId limit' w2)) = requests w2.
Proof.
  intros Hne k w0 w1 stored Hv Hf Ha.
  destruct (head2headAnswer_Throw _ _ Ha) as (Hd & _ & _).
  pose proof (getCachedOrFetch_miss_Return _ _ _ _ Hv Hf) as Hg.
  cbn zeta in Hg. fold w0 in Hg.
  assert (Hw1 : cache w1 !! k = Some (mkEntry d (Some stored) (slot_ttl (cache w !! k)))).
  { subst w1. rewrite (head2head_eq _ _ _ Hne). fold k. rewrite Hg. cbn.
    by rewrite lookup_insert_eq. }
  split; [rewrite (head2head_eq _ _ _ Hne); fold k; by rewrite Hg, Ha|].
  split; [done|].
  intros w2 Hsame Hs Hlt. rewrite Hw1 in Hsame.
  assert (Hv2 : fst (isCacheValid k w2) = Return true).
  { apply isCacheValid_true. eexists. split; [done|]. cbn. done. }
  destruct (getCachedOrFetch_hit k (head2headEndpoint matchId limit') w2 Hv2)
    as (e0 & He & Hg2).
  rewrite Hsame in He. injection He as <-. cbn in Hg2.
  rewrite (head2head_eq _ _ _ Hne). fold k. rewrite Hg2, Ha. cbn.
  split; [done|]. apply isCacheValid_frame.
Qed.

(** X18.  Of the meetings of a payload only the first five are read: what
    follows them, well formed or not, changes neither [recentMatches] nor
    whether the route can answer; and [allMatches] hands the whole list
    on. *)
Theorem only_five_meetings_are_read five rest rest' :
  length five = 5%nat ->
  recentMatches (VArr (five ++ rest)) = recentMatches (VArr (five ++ rest'))
  /\ forall d response,
      member d "matches" = VArr (five ++ rest) ->
      head2headAnswer d = Return response ->
      present d ->
      member (body response) "allMatches" = VArr (five ++ rest).
Proof.
  intros Hlen. split.
  - unfold recentMatches.
    rewrite !firstn_app, Hlen, Nat.sub_diag. cbn [firstn]. by rewrite !app_nil_r.
  - intros d response Hm. unfold head2headAnswer, present. intros H Hd.
    rewrite Hd, Hm in H. cbn in H.
    apply rbind_Return in H. destruct H as (stats & _ & H). by injection H as <-.
Qed.

(** X19.  The season is no part of the key of a last-season entry: when the
    entry is valid at the moment the route asks for it, the route answers
    with the stored data and sends nothing, whatever year and month the
    clock gives. *)
Theorem last_season_entry_is_served w :
  (fst (isCacheValid "standingsLast" (tick (tick w))) = Return true ->
   exists e, cache w !! "standingsLast" = Some e
             /\ fst (standingsLast w) = Return (res_json (data e))
             /\ requests (snd (standingsLast w)) = requests w)
  /\ (fst (isCacheValid "matchesLast" (tick (tick w))) = Return true ->
      exists e, cache w !! "matchesLast" = Some e
                /\ fst (matchesLast w) = Return (res_json (data e))
                /\ requests (snd (matchesLast w)) = requests w).
Proof.
  split; intros Hv.
  - destruct (getCachedOrFetch_hit "standingsLast"
                ("/competitions/PL/standings?season="
                 +:+ pretty (if (getMonth (Date_now (S (events w))) <? 7)%Z
                             then (getFullYear (Date_now (events w)) - 2)%Z
                             else (getFullYear (Date_now (events w)) - 1)%Z))
                (tick (tick w)) Hv) as (e & He & Hg).
    pose proof (isCacheValid_frame "standingsLast" (tick (tick w))) as (_ & _ & Hr).
    exists e. split; [exact He|].
    change (standingsLast w)
      with (cachedRoute "standingsLast"
              ("/competitions/PL/standings?season="
               +:+ pretty (if (getMonth (Date_now (S (events w))) <? 7)%Z
                           then (getFullYear (Date_now (events w)) - 2)%Z
                           else (getFullYear (Date_now (events w)) - 1)%Z))
              "Failed to fetch last season standings" (tick (tick w))).
    rewrite cachedRoute_eq, Hg. cbn [fst snd]. split; [done|exact Hr].
  - destruct (getCachedOrFetch_hit "matchesLast"
                ("/competitions/PL/matches?season="
                 +:+ pretty (if (getMonth (Date_now (S (events w))) <? 7)%Z
                             then (getFullYear (Date_now (events w)) - 2)%Z
                             else (getFullYear (Date_now (events w)) - 1)%Z))
                (tick (tick w)) Hv) as (e & He & Hg).
    pose proof (isCacheValid_frame "matchesLast" (tick (tick w))) as (_ & _ & Hr).
    exists e. split; [exact He|].
    change (matchesLast w)
      with (cachedRoute "matchesLast"
              ("/competitions/PL/matches?season="
               +:+ pretty (if (getMonth (Date_now (S (events w))) <? 7)%Z
                           then (getFullYear (Date_now (events w)) - 2)%Z
                           else (getFullYear (Date_now (events w)) - 1)%Z))
              "Failed to fetch last season matches" (tick (tick w))).
    rewrite cachedRoute_eq, Hg. cbn [fst snd]. split; [done|exact Hr].
Qed.

(** X20.  A head-to-head request that misses asks the provider for the
    match with the [limit] it was given, and with 10 when it was given none
    or an empty one. *)
Theorem head2head_asks_with_limit matchId limit w :
  matchId <> "" ->
  fst (isCacheValid (head2headKey matchId) w) = Return false ->
  requests (snd (head2head matchId limit w))
  = (requests w
       ++ [FootballRequest
             (API_BASE +:+ "/matches/" +:+ matchId +:+ "/head2head?limit="
              +:+ match limit with
                  | Some l => if String.eqb l "" then "10" else l
                  | None => "10"
                  end)
             (env_or_empty FOOTBALL_API_KEY)])%list.
Proof.
  intros Hne Hv. rewrite (head2head_eq _ _ _ Hne).
  pose proof (isCacheValid_frame (head2headKey matchId) w) as (_ & _ & Hr).
  destruct (fst (fetchFootballData (head2headEndpoint matchId limit)
                   (snd (isCacheValid (head2headKey matchId) w)))) as [d|err] eqn:Hf.
  - rewrite (getCachedOrFetch_miss_Return _ _ _ _ Hv Hf). cbn [snd requests].
    by destruct limit.
  - rewrite (getCachedOrFetch_miss_Throw _ _ _ _ Hv Hf). cbn [snd requests sent].
    rewrite Hr. by destruct limit.
Qed.

(** A request that lacks a required parameter is answered 400 before
    anything else happens: the clock is not read, nothing is sent and no
    cache is touched.  So for the match route without one of the two teams
    and for the head-to-head route with an empty match. *)
Lemma missing_parameters_are_refused homeTeam awayTeam type limit w :
  (truthy (string_value homeTeam) = false \/ truthy (string_value awayTeam) = false ->
   guardianMatch homeTeam awayTeam type w
   = (Return (res_status 400
                (VObj [ ("error", VStr "homeTeam and awayTeam parameters required") ])), w))
  /\ head2head "" limit w
     = (Return (res_status 400 (VObj [ ("error", VStr "matchId parameter required") ])), w).
Proof.
  split; [|reflexivity].
  unfold guardianMatch, try_catch. intros [->| ->]; [done|].
  by rewrite orb_true_r.
Qed.

(** X21.  A value that is not present is stored but never served.  When the
    value fetched is [null], [false], [0] or the empty string, or the clock
    read 0 when it was stored, the entry is never valid: as long as it
    stands, every call for the key goes upstream again. *)
Theorem absent_value_is_never_served cacheKey endpoint w d :
  fst (isCacheValid cacheKey w) = Return false ->
  fst (fetchFootballData endpoint (snd (isCacheValid cacheKey w))) = Return d ->
  let w1 := snd (getCachedOrFetch cacheKey endpoint w) in
  let stored := Date_now (S (events (snd (isCacheValid cacheKey w)))) in
  truthy d && truthy (VNum stored) = false ->
  fst (getCachedOrFetch cacheKey endpoint w) = Return d
  /\ cache w1 !! cacheKey
     = Some (mkEntry d (Some stored) (slot_ttl (cache w !! cacheKey)))
  /\ forall endpoint' w2,
      cache w2 !! cacheKey = cache w1 !! cacheKey ->
      isCacheValid cacheKey w2 = (Return false, w2)
      /\ requests (snd (getCachedOrFetch cacheKey endpoint' w2))
         = (requests w2 ++ [footballRequest endpoint'])%list.
Proof.
  intros Hv Hf w1 stored Habsent.
  pose proof (getCachedOrFetch_miss_Return _ _ _ _ Hv Hf) as Hg. cbn zeta in Hg.
  assert (Hw1 : cache w1 !! cacheKey
                = Some (mkEntry d (Some stored) (slot_ttl (cache w !! cacheKey)))).
  { subst w1. rewrite Hg. cbn. by rewrite lookup_insert_eq. }
  split; [by rewrite Hg|]. split; [done|].
  intros endpoint' w2 Hsame. rewrite Hw1 in Hsame.
  assert (Hi : isCacheValid cacheKey w2 = (Return false, w2)).
  { unfold isCacheValid. rewrite Hsame. cbn [data timestamp timestamp_value].
    apply andb_false_iff in Habsent. by destruct Habsent as [-> | ->]; cbn;
      rewrite ?orb_true_r. }
  split; [done|].
  assert (Hv2 : fst (isCacheValid cacheKey w2) = Return false) by by rewrite Hi.
  destruct (fst (fetchFootballData endpoint' (snd (isCacheValid cacheKey w2))))
    as [d'|err] eqn:Hf2.
  - rewrite (getCachedOrFetch_miss_Return _ _ _ _ Hv2 Hf2). done.
  - rewrite (getCachedOrFetch_miss_Throw _ _ _ _ Hv2 Hf2), Hi. done.
Qed.

End Server.

(** ** The theorems at concrete inputs *)

Ltac by_running := vm_compute; reflexivity.

Lemma valid_entry_is_served_witness :
  fst (isCacheValid (clock_at 2000) "standings" warm_world) = Return true
  /\ exists e,
      cache warm_world !! "standings" = Some e
      /\ fst (getCachedOrFetch (clock_at 2000) (answers (Rejected (FetchError "down"))) None
                "standings" "/competitions/PL/standings" warm_world) = Return (data e)
      /\ requests (snd (getCachedOrFetch (clock_at 2000) (answers (Rejected (FetchError "down"))) None
                          "standings" "/competitions/PL/standings" warm_world))
         = requests warm_world
      /\ cache (snd (getCachedOrFetch (clock_at 2000) (answers (Rejected (FetchError "down"))) None
                       "standings" "/competitions/PL/standings" warm_world))
         = cache warm_world.
Proof.
  assert (Hv : fst (isCacheValid (clock_at 2000) "standings" warm_world) = Return true)
    by by_running.
  split; [exact Hv|].
  exact (proj1 (proj2 (valid_entry_is_served (clock_at 2000)
                         (answers (Rejected (FetchError "down")))
                         None "standings" "/competitions/PL/standings" warm_world)) Hv).
Defined.

(** A provider that answers 500: the error reaches the caller and the
    initial cache is untouched. *)
Lemma failed_fetch_leaves_cache_witness :
  fst (getCachedOrFetch (clock_at 1000) (answers (Response 500 "Internal Server Error" not_json))
         (Some "key") "standings" "/competitions/PL/standings" initial_world)
  = Throw (Error "API returned 500: Internal Server Error")
  /\ cache (snd (getCachedOrFetch (clock_at 1000)
                   (answers (Response 500 "Internal Server Error" not_json))
                   (Some "key") "standings" "/competitions/PL/standings" initial_world))
     = initial_cache.
Proof.
  destruct (proj1 (failed_fetch_leaves_cache (clock_at 1000)
                     (answers (Response 500 "Internal Server Error" not_json))
                     (Some "key") "standings" "/competitions/PL/standings" initial_world)
              (Error "API returned 500: Internal Server Error"))
    as (H1 & H2 & _); [by_running | by_running |].
  split; [exact H1 | exact H2].
Defined.

(** The first request for a match creates the slot; a second one 1000 ms
    later is served from it. *)
Lemma dynamic_key_is_created_witness :
  cache (snd (getCachedOrFetch (clock_of [0; 1000; 2000])%Z
                (answers (Response 200 "OK" (Return sample_head2head))) (Some "key")
                "head2head-327123" "/matches/327123/head2head?limit=10" initial_world))
    !! "head2head-327123"
  = Some (mkEntry sample_head2head (Some 1000%Z) 300000)
  /\ fst (getCachedOrFetch (clock_of [0; 1000; 2000])%Z
            (answers (Response 200 "OK" (Return sample_head2head))) (Some "key")
            "head2head-327123" "/matches/327123/head2head?limit=10" after_head2head)
     = Return sample_head2head
  /\ requests (snd (getCachedOrFetch (clock_of [0; 1000; 2000])%Z
                      (answers (Response 200 "OK" (Return sample_head2head))) (Some "key")
                      "head2head-327123" "/matches/327123/head2head?limit=10"
                      after_head2head))
     = requests after_head2head.
Proof.
  destruct (dynamic_key_is_created (clock_of [0; 1000; 2000])%Z
              (answers (Response 200 "OK" (Return sample_head2head))) (Some "key")
              "head2head-327123" "/matches/327123/head2head?limit=10" initial_world
              sample_head2head)
    as (_ & Hslot & _ & Hlater).
  - cbn. intuition discriminate.
  - by_running.
  - by_running.
  - split; [exact Hslot|].
    apply (Hlater "/matches/327123/head2head?limit=10" after_head2head).
    + rewrite Hslot. by_running.
    + by_running.
    + by_running.
    + by_running.
Defined.

(** C9, as stated, fails: a fetch that succeeds with the body [null] creates
    the slot and stores the value, yet the next get for the key, at the
    same reading of the clock, goes upstream again. *)
Lemma null_payload_is_fetched_again :
  ~ In "head2head-327123" preRegistered
  /\ cache initial_world !! "head2head-327123" = None
  /\ fst (getCachedOrFetch (clock_at 1000) (answers (Response 200 "OK" (Return VNull)))
            (Some "key") "head2head-327123" "/matches/327123/head2head?limit=10"
            initial_world)
     = Return VNull
  /\ cache (snd (getCachedOrFetch (clock_at 1000)
                    (answers (Response 200 "OK" (Return VNull)))
                    (Some "key") "head2head-327123" "/matches/327123/head2head?limit=10"
                    initial_world)) !! "head2head-327123"
     = Some (mkEntry VNull (Some 1000%Z) 300000)
  /\ requests
       (snd (getCachedOrFetch (clock_at 1000) (answers (Response 200 "OK" (Return VNull)))
               (Some "key") "head2head-327123" "/matches/327123/head2head?limit=10"
               (snd (getCachedOrFetch (clock_at 1000)
                       (answers (Response 200 "OK" (Return VNull)))
                       (Some "key") "head2head-327123"
                       "/matches/327123/head2head?limit=10" initial_world))))
     = [ FootballRequest (API_BASE +:+ "/matches/327123/head2head?limit=10") "key";
         FootballRequest (API_BASE +:+ "/matches/327123/head2head?limit=10") "key" ].
Proof.
  split; [cbn; intuition discriminate|].
  repeat split; by_running.
Qed.

(** On 31 July 2024 (month index 6) the standings of season 2022 are asked
    for. *)
Lemma last_season_year_witness :
  requests (snd (standingsLast (clock_at 1722384000000) (answers (Response 200 "OK" (Return sample_standings)))
                   (Some "key") (fun _ => 2024%Z) (fun _ => 6%Z) initial_world))
  = [FootballRequest (API_BASE +:+ "/competitions/PL/standings?season=2022") "key"].
Proof.
  rewrite (proj1 (last_season_year (clock_at 1722384000000)
                    (answers (Response 200 "OK" (Return sample_standings)))
                    (Some "key") (fun _ => 2024%Z) (fun _ => 6%Z) initial_world)).
  by_running.
Defined.

(** C5, as stated, fails: the entry created for a head-to-head key, which is
    no property of the initial cache, is still in the cache after the clear;
    it is reset, not removed. *)
Lemma clear_keeps_head2head_entry :
  ~ In "head2head-327123" preRegistered
  /\ cache initial_world !! "head2head-327123" = None
  /\ snd (head2head (clock_of [0; 1000])%Z
            (answers (Response 200 "OK" (Return sample_head2head))) (Some "key")
            "327123" None initial_world) = after_head2head
  /\ cache (snd (cacheClear after_head2head)) !! "head2head-327123"
     = Some (mkEntry VNull None 300000)
  /\ cache (snd (cacheClear after_head2head)) !! "head2head-327123" <> None.
Proof.
  split; [cbn; intuition discriminate|].
  split; [by_running|].
  split; [by_running|].
  split; [by_running|].
  vm_compute. discriminate.
Qed.

Lemma clear_resets_entries_witness :
  isCacheValid (clock_at 2000) "head2head-327123" (snd (cacheClear after_head2head))
  = (Return false, snd (cacheClear after_head2head))
  /\ cache (snd (cacheClear after_head2head)) !! "standings"
     = Some (mkEntry VNull None 300000)
  /\ cache (snd (cacheClear after_head2head)) !! "head2head-327123"
     = Some (mkEntry VNull None 300000).
Proof.
  destruct (clear_resets_entries (clock_at 2000) after_head2head) as (Hv & _ & Hk & _).
  split; [apply Hv|].
  split.
  - apply (Hk "standings" (fresh 300000)). by_running.
  - apply (Hk "head2head-327123" (mkEntry sample_head2head (Some 1000%Z) 300000)).
    by_running.
Defined.

(** Without the credential nothing is sent; a rejected request gives [null]
    as well. *)
Lemma guardian_client_null_or_data_witness :
  fetchGuardianData guardian_unquoted_only None "/search" [("q", VStr "Arsenal")] initial_world
  = (Return VNull, initial_world)
  /\ fst (fetchGuardianData (answers (Rejected (FetchError "ENOTFOUND"))) (Some "key")
            "/search" [("q", VStr "Arsenal")] initial_world)
     = Return VNull.
Proof.
  split.
  - apply (guardian_client_null_or_data (clock_at 0) guardian_unquoted_only sample_stringify
             None "/search" [("q", VStr "Arsenal")] "Arsenal" [] initial_world).
    reflexivity.
  - rewrite (proj1 (proj2 (guardian_client_null_or_data (clock_at 0)
                             (answers (Rejected (FetchError "ENOTFOUND"))) sample_stringify
                             (Some "key") "/search" [("q", VStr "Arsenal")] "Arsenal" []
                             initial_world)) eq_refl).
    reflexivity.
Defined.

(** The example of the specification: 3 wins to 2 with 1 draw in 6
    meetings. *)
Lemma head2head_stats_derived_witness :
  exists response,
    head2headAnswer sample_head2head = Return response
    /\ member (member (member (body response) "stats") "homeTeam") "losses" = VNum 2
    /\ member (member (member (body response) "stats") "awayTeam") "losses" = VNum 3
    /\ member (member (member (body response) "stats") "homeTeam") "draws" = VNum 1
    /\ member (member (member (body response) "stats") "awayTeam") "draws" = VNum 1
    /\ member (member (body response) "stats") "totalMatches" = VNum 6
    /\ member (member (member (body response) "stats") "recentMatches") "length" = VNum 5.
Proof.
  destruct (head2headAnswer sample_head2head) as [response|e] eqn:Hr;
    [|vm_compute in Hr; discriminate Hr].
  exists response. split; [reflexivity|].
  destruct (head2head_stats_derived sample_head2head response eq_refl eq_refl Hr)
    as (_ & Hhw & Haw & Hhl & Hal & Hhd & Had & _ & Ht & matches & Hm & Hrecent).
  rewrite Hhl, Hal, Had, Hhd, Haw, Hhw, (Ht 6%Z eq_refl), Hrecent.
  vm_compute in Hm. injection Hm as <-.
  repeat split; reflexivity.
Defined.

(** C8 fails on the code: for two teams that have never met the provider
    sends an empty [matches] array, which is truthy, and the route answers
    with stats filled with zeros, not with [null]. *)
Theorem no_meetings_gets_zero_stats :
  fst (head2head (clock_of [0; 1000])%Z (answers (Response 200 "OK" (Return no_meetings)))
         (Some "key") "327123" None initial_world)
  = Return (res_json (VObj [ ("success", VBool true);
                             ("stats", zero_stats);
                             ("allMatches", VArr []) ]))
  /\ zero_stats <> VNull.
Proof. split; [vm_compute; reflexivity|discriminate]. Qed.

(** A second request with another [limit], 1000 ms after the first, gets the
    answer of the first and sends nothing. *)
Lemma head2head_key_ignores_limit_witness :
  fst (head2head (clock_of [0; 1000; 2000])%Z
         (answers (Response 200 "OK" (Return sample_head2head))) (Some "key")
         "327123" (Some "3") after_head2head)
  = fst (head2head (clock_of [0; 1000; 2000])%Z
           (answers (Response 200 "OK" (Return sample_head2head))) (Some "key")
           "327123" None initial_world)
  /\ requests (snd (head2head (clock_of [0; 1000; 2000])%Z
                      (answers (Response 200 "OK" (Return sample_head2head))) (Some "key")
                      "327123" (Some "3") after_head2head))
     = requests after_head2head.
Proof.
  destruct (head2head_key_ignores_limit (clock_of [0; 1000; 2000])%Z
              (answers (Response 200 "OK" (Return sample_head2head))) (Some "key")
              "327123" None (Some "3") initial_world sample_head2head)
    as (_ & Hslot & Hlater).
  - discriminate.
  - by_running.
  - by_running.
  - destruct (Hlater after_head2head) as (_ & H1 & H2).
    + rewrite Hslot. by_running.
    + by_running.
    + by_running.
    + by_running.
    + split; [exact H1 | exact H2].
Defined.

(** C10, as stated, fails: when the provider answers the first request,
    made with the limit 5, with the body [false], the second request for
    the match, made with the limit 20 at the same reading of the clock, is
    not served from the entry: it calls upstream with its own limit. *)
Lemma falsy_payload_asks_with_second_limit :
  cache (snd (head2head (clock_at 1000) (answers (Response 200 "OK" (Return (VBool false))))
                (Some "key") "327123" (Some "5") initial_world)) !! "head2head-327123"
  = Some (mkEntry (VBool false) (Some 1000%Z) 300000)
  /\ requests
       (snd (head2head (clock_at 1000) (answers (Response 200 "OK" (Return (VBool false))))
               (Some "key") "327123" (Some "20")
               (snd (head2head (clock_at 1000)
                       (answers (Response 200 "OK" (Return (VBool false))))
                       (Some "key") "327123" (Some "5") initial_world))))
     = [ FootballRequest (API_BASE +:+ "/matches/327123/head2head?limit=5") "key";
         FootballRequest (API_BASE +:+ "/matches/327123/head2head?limit=20") "key" ].
Proof. split; by_running. Qed.

(** C1 fails on the code at a team name that the table inherits from
    [Object.prototype].  [constructor] is no team of the table, so its only
    variant is the name itself and the chain of the specification is
    [exact], then [unquoted] on [constructor Arsenal]; the Guardian has an
    article for that query.  The handler finds the function [Object] under
    the name, reads its first element as [undefined], and sends
    [undefined Arsenal] instead: it answers [none]. *)
Theorem inherited_name_is_searched_as_undefined :
  lookup_variations "constructor" TEAM_NAME_VARIATIONS = None
  /\ strategies_spec "constructor" "Arsenal"
     = [ ("exact", exactPhrases "constructor" "Arsenal");
         ("unquoted", "constructor Arsenal") ]
  /\ getTeamVariations "constructor" = Inherited (Some 1%Z)
  /\ map (fun r => assoc "q" (queryParams_of r))
         (requests (snd (guardianMatch (clock_at 1000) guardian_constructor_only
                           sample_stringify (Some "key")
                           (Some "constructor") (Some "Arsenal") None initial_world)))
     = [ VStr (exactPhrases "constructor" "Arsenal"); VStr "undefined Arsenal" ]
  /\ fst (guardianMatch (clock_at 1000) guardian_constructor_only sample_stringify
            (Some "key") (Some "constructor") (Some "Arsenal") None initial_world)
     = Return {| status := 200;
                 body := VObj [ ("success", VBool true);
                                ("articles", VArr []);
                                ("total", VNum 0);
                                ("searchStrategy", VStr "none");
                                ("message", VStr "No match articles found. The match may not have coverage yet, or try checking later.") ] |}
  /\ fst (firstWithArticles (clock_at 1000) guardian_constructor_only sample_stringify
            (Some "key") (searchOptions None)
            (strategies_spec "constructor" "Arsenal") initial_world)
     = Return {| status := 200;
                 body := VObj [ ("success", VBool true);
                                ("articles", VArr [sample_article]);
                                ("total", VNum 1);
                                ("searchStrategy", VStr "unquoted") ] |}.
Proof. repeat split; vm_compute; reflexivity. Qed.

(** The test of the specification: nothing for [exact] and [full-names],
    an article for [unquoted]; the answer names [unquoted] and three
    requests were sent, none for a variation. *)
Lemma match_search_order_witness :
  fst (guardianMatch (clock_at 1000) guardian_unquoted_only sample_stringify (Some "key")
         (Some "Man City") (Some "Arsenal") (Some "report") initial_world)
  = Return (res_json (VObj [ ("success", VBool true);
                             ("articles", VArr [sample_article]);
                             ("total", VNum 1);
                             ("searchStrategy", VStr "unquoted") ]))
  /\ length (requests (snd (guardianMatch (clock_at 1000) guardian_unquoted_only
                              sample_stringify (Some "key")
                              (Some "Man City") (Some "Arsenal") (Some "report")
                              initial_world)))
     = 3%nat.
Proof.
  destruct (match_search_order (clock_at 1000) guardian_unquoted_only sample_stringify
              (Some "key") "Man City" "Arsenal" (Some "report") initial_world)
    as (Hfound & _); [discriminate | discriminate | reflexivity | reflexivity |].
  destruct (Hfound
              [ ("exact", exactPhrases "Man City" "Arsenal");
                ("full-names", exactPhrases "Manchester City" "Arsenal") ]
              "unquoted" "Manchester City Arsenal"
              [ ("variation-1", exactPhrases "Man City" "Arsenal") ]
              [ VObj [ ("total", VNum 0); ("results", VArr []) ];
                VObj [ ("total", VNum 0); ("results", VArr []) ] ]
              (VObj [ ("total", VNum 1); ("results", VArr [sample_article]) ]))
    as [Hok _].
  - by_running.
  - by_running.
  - repeat constructor.
  - rewrite Hok by by_running. split; by_running.
Defined.

(** ** The further properties at concrete inputs *)

(** A 429 of the provider, seen from the standings route. *)
Lemma cached_route_error_table_witness :
  fst (standingsRoute (clock_at 1000) (answers (Response 429 "Too Many Requests" not_json))
         (Some "key") initial_world)
  = Return (res_status 500
              (VObj [ ("error", VStr "Failed to fetch standings");
                      ("details", VStr "Rate limit exceeded. Wait a minute or add API key.") ])).
Proof.
  destruct (cached_route_error_table (clock_at 1000)
              (answers (Response 429 "Too Many Requests" not_json)) (Some "key")
              "standings" "/competitions/PL/standings" "Failed to fetch standings"
              initial_world)
    as (_ & _ & H429 & _); [by_running|].
  exact (proj1 (H429 "Too Many Requests" not_json eq_refl)).
Defined.

(** The standings asked twice, 1000 ms apart: one request. *)
Lemma cached_route_second_call_witness :
  fst (standingsRoute (clock_of [0; 1000; 2000])%Z
         (answers (Response 200 "OK" (Return sample_standings))) (Some "key")
         (snd (standingsRoute (clock_of [0; 1000; 2000])%Z
                 (answers (Response 200 "OK" (Return sample_standings))) (Some "key")
                 initial_world)))
  = Return (res_json sample_standings)
  /\ length (requests
               (snd (standingsRoute (clock_of [0; 1000; 2000])%Z
                       (answers (Response 200 "OK" (Return sample_standings))) (Some "key")
                       (snd (standingsRoute (clock_of [0; 1000; 2000])%Z
                               (answers (Response 200 "OK" (Return sample_standings)))
                               (Some "key") initial_world)))))
     = 1%nat.
Proof.
  destruct (cached_route_second_call (clock_of [0; 1000; 2000])%Z
              (answers (Response 200 "OK" (Return sample_standings))) (Some "key")
              "standings" "/competitions/PL/standings" "Failed to fetch standings"
              initial_world sample_standings)
    as (_ & Hsent & Hlater); [by_running | by_running |].
  destruct (Hlater _ eq_refl) as (H1 & H2); [by_running | by_running | by_running |].
  split; [exact H1|].
  unfold standingsRoute. rewrite H2, Hsent. reflexivity.
Defined.

(** The standings stored at 1000 with five minutes to live, asked for at
    301000: fetched again. *)
Lemma expired_entry_is_refetched_witness :
  fst (getCachedOrFetch (clock_at 301000) (answers (Response 200 "OK" (Return newer_standings)))
         (Some "key") "standings" "/competitions/PL/standings" warm_world)
  = Return newer_standings
  /\ cache (snd (getCachedOrFetch (clock_at 301000)
                   (answers (Response 200 "OK" (Return newer_standings)))
                   (Some "key") "standings" "/competitions/PL/standings" warm_world))
       !! "standings"
     = Some (mkEntry newer_standings (Some 301000%Z) 300000).
Proof.
  destruct (expired_entry_is_refetched (clock_at 301000)
              (answers (Response 200 "OK" (Return newer_standings))) (Some "key")
              "standings" "/competitions/PL/standings" warm_world
              (mkEntry sample_standings (Some 1000%Z) 300000) newer_standings)
    as (H1 & _ & H3);
    [by_running | by_running | by_running | unfold clock_at; cbn; lia | by_running |].
  split; [exact H1 | exact H3].
Defined.

(** Two calls while the provider answers 500: two requests. *)
Lemma failed_fetch_is_retried_witness :
  length (requests
            (snd (getCachedOrFetch (clock_at 1000)
                    (answers (Response 500 "Internal Server Error" not_json)) (Some "key")
                    "standings" "/competitions/PL/standings"
                    (snd (getCachedOrFetch (clock_at 1000)
                            (answers (Response 500 "Internal Server Error" not_json))
                            (Some "key") "standings" "/competitions/PL/standings"
                            initial_world)))))
  = 2%nat.
Proof.
  destruct (failed_fetch_is_retried (clock_at 1000)
              (answers (Response 500 "Internal Server Error" not_json)) (Some "key")
              "standings" "/competitions/PL/standings" "/competitions/PL/standings"
              initial_world (Error "API returned 500: Internal Server Error"))
    as (_ & H2).
  - intros e He. vm_compute in He. injection He as <-. reflexivity.
  - by_running.
  - rewrite H2. reflexivity.
Defined.

(** The same search twice, 1000 ms apart: the second reads the clock and
    nothing else. *)
Lemma search_result_is_cached_witness :
  searchGuardianArticles (clock_of [1000; 0; 2000])%Z guardian_unquoted_only
    sample_stringify (Some "key") "Manchester City Arsenal" (searchOptions (Some "report"))
    (snd (searchGuardianArticles (clock_of [1000; 0; 2000])%Z guardian_unquoted_only
            sample_stringify (Some "key") "Manchester City Arsenal"
            (searchOptions (Some "report")) initial_world))
  = (Return (VObj [ ("total", VNum 1); ("results", VArr [sample_article]) ]),
     tick (snd (searchGuardianArticles (clock_of [1000; 0; 2000])%Z guardian_unquoted_only
                  sample_stringify (Some "key") "Manchester City Arsenal"
                  (searchOptions (Some "report")) initial_world))).
Proof.
  destruct (search_result_is_cached (clock_of [1000; 0; 2000])%Z guardian_unquoted_only
              sample_stringify (Some "key") "Manchester City Arsenal"
              (searchOptions (Some "report")) initial_world)
    as (_ & _ & _ & Hlater); [by_running | by_running | by_running | by_running |].
  rewrite (Hlater _ eq_refl); [reflexivity | by_running | by_running].
Defined.

(** No credential: the match route answers [none] and sends nothing. *)
Lemma without_credential_routes_degrade_witness :
  fst (guardianMatch (clock_at 1000) guardian_unquoted_only sample_stringify None
         (Some "Man City") (Some "Arsenal") (Some "report") initial_world)
  = Return notFound
  /\ requests (snd (guardianMatch (clock_at 1000) guardian_unquoted_only sample_stringify None
                      (Some "Man City") (Some "Arsenal") (Some "report") initial_world))
     = [].
Proof.
  destruct (without_credential_routes_degrade (clock_at 1000) guardian_unquoted_only
              sample_stringify None (Some "Man City") (Some "Arsenal") (Some "report")
              (Some "Arsenal") initial_world eq_refl)
    as (H1 & _ & _ & _ & H5 & _).
  split; [exact (H5 eq_refl eq_refl eq_refl) | exact H1].
Defined.

(** A payload whose only meeting is [null]: 500 for the request that fetched
    it and for the next one, which sends nothing. *)
Lemma malformed_head2head_is_cached_witness :
  fst (head2head (clock_of [0; 1000; 2000])%Z
         (answers (Response 200 "OK" (Return malformed_head2head))) (Some "key")
         "327123" None initial_world)
  = Return (failed "Failed to fetch head-to-head data" malformed_error)
  /\ fst (head2head (clock_of [0; 1000; 2000])%Z
            (answers (Response 200 "OK" (Return malformed_head2head))) (Some "key")
            "327123" (Some "3")
            (snd (head2head (clock_of [0; 1000; 2000])%Z
                    (answers (Response 200 "OK" (Return malformed_head2head))) (Some "key")
                    "327123" None initial_world)))
     = Return (failed "Failed to fetch head-to-head data" malformed_error).
Proof.
  destruct (malformed_head2head_is_cached (clock_of [0; 1000; 2000])%Z
              (answers (Response 200 "OK" (Return malformed_head2head))) (Some "key")
              "327123" None (Some "3") initial_world malformed_head2head malformed_error)
    as (H1 & _ & Hlater); [discriminate | by_running | by_running | by_running |].
  split; [exact H1|].
  exact (proj1 (Hlater _ eq_refl ltac:(by_running) ltac:(by_running))).
Defined.

(** A sixth meeting that is [null] changes nothing. *)
Lemma only_five_meetings_are_read_witness :
  recentMatches (VArr (five_meetings ++ [VNull])) = recentMatches (VArr (five_meetings ++ [])).
Proof.
  exact (proj1 (only_five_meetings_are_read five_meetings [VNull] [] eq_refl)).
Defined.

(** The limit 3 is sent upstream. *)
Lemma head2head_asks_with_limit_witness :
  requests (snd (head2head (clock_of [0; 1000])%Z
                   (answers (Response 200 "OK" (Return sample_head2head))) (Some "key")
                   "327123" (Some "3") initial_world))
  = [FootballRequest (API_BASE +:+ "/matches/327123/head2head?limit=3") "key"].
Proof.
  rewrite (head2head_asks_with_limit (clock_of [0; 1000])%Z
             (answers (Response 200 "OK" (Return sample_head2head))) (Some "key")
             "327123" (Some "3") initial_world); [reflexivity | discriminate | by_running].
Defined.

(** A provider that answers [false]: the second call goes upstream as the
    first did. *)
Lemma absent_value_is_never_served_witness :
  length (requests
            (snd (getCachedOrFetch (clock_of [0; 1000; 2000])%Z
                    (answers (Response 200 "OK" (Return (VBool false)))) (Some "key")
                    "head2head-327123" "/matches/327123/head2head?limit=10"
                    (snd (getCachedOrFetch (clock_of [0; 1000; 2000])%Z
                            (answers (Response 200 "OK" (Return (VBool false)))) (Some "key")
                            "head2head-327123" "/matches/327123/head2head?limit=10"
                            initial_world)))))
  = 2%nat.
Proof.
  destruct (absent_value_is_never_served (clock_of [0; 1000; 2000])%Z
              (answers (Response 200 "OK" (Return (VBool false)))) (Some "key")
              "head2head-327123" "/matches/327123/head2head?limit=10" initial_world
              (VBool false))
    as (_ & _ & Hlater); [by_running | by_running | by_running |].
  rewrite (proj2 (Hlater "/matches/327123/head2head?limit=10" _ eq_refl)).
  by_running.
Defined.

(** A team route without the credential: 200, no article. *)
Lemma team_route_answers_witness :
  fst (guardianTeam (clock_at 1000) guardian_unquoted_only sample_stringify None
         (Some "Arsenal") initial_world)
  = Return (res_json (VObj [ ("success", VBool true);
                             ("articles", VArr []);
                             ("total", VNum 0) ])).
Proof.
  destruct (proj1 (proj2 (team_route_answers (clock_at 1000) guardian_unquoted_only
                            sample_stringify None (Some "Arsenal") initial_world))
              eq_refl)
    as (articles & Hs & _ & Hnull).
  apply Hnull. vm_compute in Hs. by injection Hs as <-.
Defined.

(** The health route on the warm cache: nothing is sent, the cache is as
    it was. *)
Lemma health_only_reads_witness :
  cache (snd (health (clock_at 2000) (fun t => pretty t) warm_world)) = cache warm_world
  /\ requests (snd (health (clock_at 2000) (fun t => pretty t) warm_world))
     = requests warm_world.
Proof.
  destruct (health_only_reads (clock_at 2000) (fun t => pretty t) warm_world)
    as (response & _ & _ & Hc & _ & Hr & _).
  split; [exact Hc | exact Hr].
Defined.

(** Last season's standings stored at 1000 are served at 2000 with the
    provider down. *)
Lemma last_season_entry_is_served_witness :
  fst (standingsLast (clock_at 2000) (answers (Rejected (FetchError "down"))) (Some "key")
         (fun _ => 2025%Z) (fun _ => 9%Z)
         {| cache := <["standingsLast" := mkEntry sample_standings (Some 1000%Z) 3600000]>
                       initial_cache;
            guardianArticles := ∅; events := 0; requests := [] |})
  = Return (res_json sample_standings).
Proof.
  destruct (proj1 (last_season_entry_is_served (clock_at 2000)
                     (answers (Rejected (FetchError "down"))) (Some "key")
                     (fun _ => 2025%Z) (fun _ => 9%Z)
                     {| cache := <["standingsLast"
                                   := mkEntry sample_standings (Some 1000%Z) 3600000]>
                                   initial_cache;
                        guardianArticles := ∅; events := 0; requests := [] |}))
    as (e & He & Hr & _); [by_running|].
  rewrite Hr. vm_compute in He. by injection He as <-.
Defined.

(** The variants of [Spurs] hold the name itself. *)
Lemma team_name_is_a_variation_witness :
  exists names,
    getTeamVariations "Spurs" = Names names
    /\ In "Spurs" names
    /\ (1 <= length names <= 3)%nat.
Proof. exact (proj1 (team_name_is_a_variation "Spurs") eq_refl). Defined.
